(** * Pay-per-vote backend: checkout, payment confirmation and tally ledger

    A shallow embedding of the request handlers of [backend/server.js]
    (the complete revision of the file, the one with the routes
    [/api/admin/settings], [/api/create-checkout-session],
    [/api/verify-session] and [/api/stripe/webhook] and the helper
    [priceMinor]) and of the checkout helpers of the React front end
    ([normalizeVotes], [isValidCurrency], [createCheckout]).  Also
    embedded: the seed at start-up, the CORS check ([isAllowedOrigin],
    [allowCors]) and its middleware, the page's effect after the
    redirect, and from the file's earlier revision the route
    [/api/admin/seed] and its variant of the pull path.

    Modelling conventions.
    - The SQLite database is a record of three tables.  [candidates] is a
      finite map from the INTEGER PRIMARY KEY to the row; [transactions]
      is the list of rows in insertion order (rows are never deleted);
      [settings] is the single row with id 1 that the start-up code seeds.
    - A JSON number with an integer value is [JS.JNum n]; the Number it
      denotes is the double nearest to [n] ([JS.to_number]), and its
      String is the one JavaScript prints, with an exponent from 1e21
      on.  Numbers with a fraction are outside the model.  The vote
      counts and amounts that the handlers compute from a parsed count
      are integers: [priceMinor] multiplies exactly, as JavaScript does
      while the product stays below 2^53.
    - JavaScript strings are [string]s of bytes, the UTF-8 form of the
      text.  White space is that of the language, in UTF-8.  Case
      mapping is modelled on ASCII text only.
    - The payment provider (Stripe) is a black box: each request comes
      with the answers the provider gives during that request.
    - A write statement of the storage engine, and the BEGIN and COMMIT
      of a transaction, may throw; which ones do is given by a fault
      plan, one boolean per such statement in execution order.  SELECT
      statements are total.
    - [run] handles requests one after another: no other request runs
      while a handler waits for the provider.  The pull path is also
      given in its two turns around that wait, for what happens when a
      notification arrives in between. *)

From Stdlib Require Import ZArith Lia Ascii String List.
From Stdlib Require Import DecimalString DecimalPos DecimalZ.
From stdpp Require Import base option list sorting gmap strings.

Local Open Scope string_scope.
Local Open Scope Z_scope.

(** ** JavaScript values and the built-ins the handlers call *)

Module JS.

(** The JSON values a request field can hold ([JUndefined]: the field
    is absent).  Arrays and objects are not needed by any handler.
    [JNum n] is the JSON number written as the integer [n]; the Number
    it denotes is [to_number n]. *)
Inductive value :=
| JUndefined
| JNull
| JBool (b : bool)
| JNum (n : Z)
| JStr (s : string).

(** [Number.parseInt] yields NaN, an integer-valued Number or an
    infinity. *)
Inductive number :=
| NaN
| Num (n : Z)
| Inf (negative : bool).

(** A natural number rounded to 53 significant bits, ties to even:
    the magnitude of the nearest double. *)
Definition round53 (m : Z) : Z :=
  if m <? 2 ^ 53 then m
  else
    let e := Z.log2 m - 52 in
    let q := m / 2 ^ e in
    let r := m mod 2 ^ e in
    let half := 2 ^ (e - 1) in
    let q' := if (half <? r) || ((r =? half) && Z.odd q) then q + 1 else q in
    q' * 2 ^ e.

(** The Number value for an integer: the nearest double, an infinity
    from 2^1024 on. *)
Definition to_number (n : Z) : number :=
  let x := round53 (Z.abs n) in
  if 2 ^ 1024 <=? x then Inf (n <? 0) else Num (Z.sgn n * x).

(** All decimal digits of an integer, with a minus sign for a negative
    one. *)
Definition decimal (n : Z) : string :=
  NilZero.string_of_int (Z.to_int n).

(** [reads_as x y]: the numeral [y] denotes the Number [x]. *)
Definition reads_as (x y : Z) : bool := (0 <? y) && (round53 y =? x).

(** Of the two multiples of [10^j] next to [x], the one that denotes
    [x]; the closer one when both do, and of two equally close ones
    the one with the even last digit. *)
Definition nearest (x : Z) (j : nat) : option Z :=
  let p := 10 ^ Z.of_nat j in
  let lo := x / p * p in
  let hi := lo + p in
  match reads_as x lo, reads_as x hi with
  | true, true =>
      Some (if x - lo <? hi - x then lo
            else if hi - x <? x - lo then hi
            else if Z.even (x / p) then lo else hi)
  | true, false => Some lo
  | false, true => Some hi
  | false, false => None
  end.

(** The numeral with the fewest significant digits that denotes the
    Number [x]: the search runs from [j] trailing zeros down to none. *)
Fixpoint shortest (x : Z) (j : nat) : Z :=
  match nearest x j with
  | Some y => y
  | None => match j with O => x | S j' => shortest x j' end
  end.

(** A numeral without its trailing zeros. *)
Fixpoint strip_zeros (s : string) : string :=
  match s with
  | EmptyString => EmptyString
  | String c r =>
      match strip_zeros r with
      | EmptyString =>
          if bool_decide (c = "0"%char) then EmptyString
          else String c EmptyString
      | r' => String c r'
      end
  end.

(** Number::toString on a Number [0 <= x] with an integer value.
    Below 2^53 every integer is a Number and is its own shortest
    numeral.  Above, the digits are those of the shortest numeral that
    denotes [x], followed by zeros up to 21 digits and written with an
    exponent from 22 digits on. *)
Definition string_of_double (x : Z) : string :=
  if x <? 2 ^ 53 then decimal x
  else
    let ds := decimal (shortest x (String.length (decimal x))) in
    let n := Z.of_nat (String.length ds) in
    if n <=? 21 then ds
    else
      match strip_zeros ds with
      | String d EmptyString => String d ("e+" ++ decimal (n - 1))
      | String d r => String d ("." ++ r ++ "e+" ++ decimal (n - 1))
      | EmptyString => ds
      end.

(** ToString of the Number for the integer [n]. *)
Definition string_of_Z (n : Z) : string :=
  match to_number n with
  | Num x =>
      if x <? 0 then String "-" (string_of_double (- x))
      else string_of_double x
  | Inf true => "-Infinity"
  | Inf false => "Infinity"
  | NaN => "NaN"
  end.

(** ToString, as [parseInt] and [String] apply it to their argument. *)
Definition ToString (v : value) : string :=
  match v with
  | JUndefined => "undefined"
  | JNull => "null"
  | JBool true => "true"
  | JBool false => "false"
  | JNum n => string_of_Z n
  | JStr s => s
  end.

(** White space of one byte: TAB, LF, VT, FF, CR and SPACE. *)
Definition is_space (c : ascii) : bool :=
  let n := nat_of_ascii c in
  ((9 <=? n)%nat && (n <=? 13)%nat) || (n =? 32)%nat.

(** White space of two bytes: U+00A0. *)
Definition is_space2 (c1 c2 : ascii) : bool :=
  (nat_of_ascii c1 =? 194)%nat && (nat_of_ascii c2 =? 160)%nat.

(** White space and line terminators of three bytes: U+1680,
    U+2000 to U+200A, U+2028, U+2029, U+202F, U+205F, U+3000 and
    U+FEFF. *)
Definition is_space3 (c1 c2 c3 : ascii) : bool :=
  let a := nat_of_ascii c1 in
  let b := nat_of_ascii c2 in
  let c := nat_of_ascii c3 in
  ((a =? 225) && (b =? 154) && (c =? 128)
   || (a =? 226) && (b =? 128)
      && ((128 <=? c) && (c <=? 138) || (c =? 168) || (c =? 169)
          || (c =? 175))
   || (a =? 226) && (b =? 129) && (c =? 159)
   || (a =? 227) && (b =? 128) && (c =? 128)
   || (a =? 239) && (b =? 187) && (c =? 191))%nat.

Definition digit_of (c : ascii) : option Z :=
  let n := Z.of_nat (nat_of_ascii c) in
  if (48 <=? n) && (n <=? 57) then Some (n - 48) else None.

(** The string without its leading white space. *)
Fixpoint skip_space (s : string) : string :=
  match s with
  | EmptyString => s
  | String c1 r1 =>
      if is_space c1 then skip_space r1
      else if (nat_of_ascii c1 <? 128)%nat then s
      else
        match r1 with
        | EmptyString => s
        | String c2 r2 =>
            if is_space2 c1 c2 then skip_space r2
            else
              match r2 with
              | EmptyString => s
              | String c3 r3 =>
                  if is_space3 c1 c2 c3 then skip_space r3 else s
              end
        end
  end.

(** The digit loop of [parseInt]: consume decimal digits, stop at the
    first other character. *)
Fixpoint digits (s : string) (acc : Z) : Z :=
  match s with
  | String c r =>
      match digit_of c with
      | Some d => digits r (10 * acc + d)
      | None => acc
      end
  | EmptyString => acc
  end.

Definition starts_with_digit (s : string) : bool :=
  match s with
  | String c _ => bool_decide (is_Some (digit_of c))
  | EmptyString => false
  end.

(** The optional sign of a numeral: [true] for a minus sign. *)
Definition strip_sign (s : string) : bool * string :=
  match s with
  | String c r =>
      if bool_decide (c = "-"%char) then (true, r)
      else if bool_decide (c = "+"%char) then (false, r)
      else (false, s)
  | EmptyString => (false, s)
  end.

(** [Number.parseInt(s, 10)] on a string: strip leading white space,
    read an optional sign, then the longest run of decimal digits; the
    result is the Number for the integer read, NaN when there is no
    digit. *)
Definition parseInt_string (s : string) : number :=
  let '(neg, s) := strip_sign (skip_space s) in
  if starts_with_digit s
  then to_number (if neg then - digits s 0 else digits s 0)
  else NaN.

(** [Number.parseInt(v, 10)]: ToString first, then parse. *)
Definition parseInt (v : value) : number := parseInt_string (ToString v).

(** [Number.isFinite] on the result of [parseInt]. *)
Definition isFinite (n : number) : bool :=
  match n with Num _ => true | NaN | Inf _ => false end.

(** ToBoolean of a string, and of an optional string ([undefined] is
    falsy, and so is the empty string). *)
Definition truthy (s : string) : bool :=
  match s with EmptyString => false | _ => true end.

Definition truthy_opt (o : option string) : bool :=
  match o with Some s => truthy s | None => false end.

(** [o || dflt] on an optional string. *)
Definition or_default (o : option string) (dflt : string) : string :=
  match o with
  | Some s => if truthy s then s else dflt
  | None => dflt
  end.

(** A string of ASCII characters only. *)
Fixpoint ascii_only (s : string) : bool :=
  match s with
  | String c r => (nat_of_ascii c <? 128)%nat && ascii_only r
  | EmptyString => true
  end.

(** [toUpperCase] on an ASCII string: the letters a to z change, every
    other character stays.  The case mapping of other characters is
    not modelled; what is proved of a string that goes through
    [toUpperCase] is proved of ASCII strings. *)
Definition upper_char (c : ascii) : ascii :=
  let n := nat_of_ascii c in
  if ((97 <=? n)%nat && (n <=? 122)%nat) then ascii_of_nat (n - 32) else c.

Fixpoint toUpperCase (s : string) : string :=
  match s with
  | String c r => String (upper_char c) (toUpperCase r)
  | EmptyString => EmptyString
  end.

End JS.

(** ** The relational store *)

(** A row of [candidates]; the key of the map is the row's [id]. *)
Record candidate := Candidate {
  name : string;
  tally : Z
}.

(** A row of [transactions].  The handlers always bind the provider's
    session identifier to the nullable column [session_id]; [paid] is
    the INTEGER flag 0/1. *)
Record transaction := Transaction {
  session_id : string;
  candidate_id : Z;
  votes : Z;
  currency : string;
  amount_total : Z;
  paid : bool
}.

(** The row of [settings] with id 1; both columns are nullable TEXT. *)
Record settings_row := Settings {
  question : option string;
  glow : option string
}.

Record db := Db {
  candidates : gmap Z candidate;
  transactions : list transaction;
  settings : settings_row
}.

(** A call either returns or throws an [Error] with a message. *)
Inductive outcome (A : Type) :=
| Ok (a : A)
| Thrown (message : string).
Arguments Ok {A} a.
Arguments Thrown {A} message.

(** Which of the coming statements (INSERT, UPDATE, BEGIN, COMMIT) the
    engine fails: [true] at position [i] makes the [i]-th of them throw.
    Past the end of the plan nothing fails. *)
Definition plan := list bool.

Definition next_fault (p : plan) : bool * plan :=
  match p with
  | [] => (false, [])
  | b :: p' => (b, p')
  end.

Definition engine_error : string := "SQLITE_ERROR".

(** Statements run against the store and the fault plan. *)
Definition Sql (A : Type) : Type := plan * db -> outcome A * (plan * db).

Definition sql_ret {A} (a : A) : Sql A := fun st => (Ok a, st).

Definition sql_bind {A B} (m : Sql A) (k : A -> Sql B) : Sql B :=
  fun st =>
    match m st with
    | (Ok a, st') => k a st'
    | (Thrown e, st') => (Thrown e, st')
    end.

Notation "m ;;; k" := (sql_bind m (fun _ => k))
  (at level 100, k at level 200, right associativity).

(** A write statement: the engine may refuse it, a constraint may fail
    (then [f] throws); in both cases the store is left as it was. *)
Definition write (f : db -> outcome db) : Sql unit :=
  fun '(p, d) =>
    let '(fault, p') := next_fault p in
    if fault then (Thrown engine_error, (p', d))
    else match f d with
         | Ok d' => (Ok tt, (p', d'))
         | Thrown e => (Thrown e, (p', d))
         end.

#[global] Arguments write : simpl never.

(** [db.transaction(fn)()] of better-sqlite3: BEGIN, run [fn], COMMIT;
    when [fn] or COMMIT throws, ROLLBACK to the store as it was at BEGIN
    and rethrow. *)
Definition db_transaction {A} (fn : Sql A) : Sql A :=
  fun '(p, d) =>
    let '(fault, p1) := next_fault p in
    if fault then (Thrown engine_error, (p1, d))
    else match fn (p1, d) with
         | (Ok a, (p2, d')) =>
             let '(fault', p3) := next_fault p2 in
             if fault' then (Thrown engine_error, (p3, d))
             else (Ok a, (p3, d'))
         | (Thrown e, (p2, _)) => (Thrown e, (p2, d))
         end.

(** [SELECT * FROM candidates WHERE id=?] *)
Definition select_candidate (id : Z) (d : db) : option candidate :=
  candidates d !! id.

(** [SELECT * FROM transactions WHERE session_id=?], [.get]: the first
    matching row. *)
Definition select_transaction (sid : string) (d : db) : option transaction :=
  List.find (fun t => bool_decide (session_id t = sid)) (transactions d).

Definition set_paid (t : transaction) : transaction :=
  Transaction (session_id t) (candidate_id t) (votes t) (currency t)
              (amount_total t) true.

(** [UPDATE transactions SET paid=1 WHERE session_id=?] *)
Definition mark_paid (sid : string) (d : db) : db :=
  Db (candidates d)
     (List.map (fun t => if bool_decide (session_id t = sid)
                         then set_paid t else t)
               (transactions d))
     (settings d).

Definition add_tally (v : Z) (c : candidate) : candidate :=
  Candidate (name c) (tally c + v).

(** [UPDATE candidates SET tally=tally+? WHERE id=?] *)
Definition inc_tally (v : Z) (id : Z) (d : db) : db :=
  Db (alter (add_tally v) id (candidates d)) (transactions d) (settings d).

(** [INSERT INTO transactions (session_id, candidate_id, votes, currency,
    amount_total, paid) VALUES (?,?,?,?,?,0)]: [session_id] is UNIQUE and
    [candidate_id] REFERENCES [candidates(id)]. *)
Definition insert_transaction (sid : string) (cid v : Z) (cur : string)
    (amount : Z) (d : db) : outcome db :=
  match select_transaction sid d with
  | Some _ => Thrown "UNIQUE constraint failed: transactions.session_id"
  | None =>
      match select_candidate cid d with
      | None => Thrown "FOREIGN KEY constraint failed"
      | Some _ =>
          Ok (Db (candidates d)
                 (transactions d ++ [Transaction sid cid v cur amount false])
                 (settings d))
      end
  end.

(** SQL [COALESCE(?, col)] *)
Definition coalesce (x col : option string) : option string :=
  match x with
  | Some _ => x
  | None => col
  end.

(** [UPDATE settings SET question=COALESCE(?,question),
    glow=COALESCE(?,glow) WHERE id=1] *)
Definition update_settings (q g : option string) (d : db) : db :=
  Db (candidates d) (transactions d)
     (Settings (coalesce q (question (settings d)))
               (coalesce g (glow (settings d)))).

(** The statements of the confirmer's unit of work. *)
Definition mark (sid : string) : Sql unit :=
  write (fun d => Ok (mark_paid sid d)).

Definition inc (v id : Z) : Sql unit :=
  write (fun d => Ok (inc_tally v id d)).

(** *** Start-up: schema and seed *)

(** The key AUTOINCREMENT gives the next row of a table that has lost
    no row and skipped no insert: one more than the largest key in the
    table. *)
Definition next_id (tbl : gmap Z candidate) : Z :=
  1 + map_fold (fun k _ m => Z.max k m) 0 tbl.

Definition name_taken (n : string) (tbl : gmap Z candidate) : bool :=
  bool_decide (Exists (fun kc => name kc.2 = n) (map_to_list tbl)).

(** [INSERT INTO candidates (name) VALUES (?)]: [name] is UNIQUE, the
    tally takes its DEFAULT 0. *)
Definition insert_candidate (n : string) (d : db) : outcome db :=
  if name_taken n (candidates d)
  then Thrown "UNIQUE constraint failed: candidates.name"
  else Ok (Db (<[next_id (candidates d) := Candidate n 0]> (candidates d))
              (transactions d) (settings d)).

(** [for (const n of arr) ins.run(n)] *)
Fixpoint seed_all (names : list string) : Sql unit :=
  match names with
  | [] => sql_ret tt
  | n :: rest => write (insert_candidate n) ;;; seed_all rest
  end.

(** The store after the three [CREATE TABLE IF NOT EXISTS] and the
    [INSERT OR IGNORE] of the settings row, on a new database file. *)
Definition empty_db : db :=
  Db ∅ [] (Settings (Some "Is this week's answer YES?") (Some "#00ffff")).

(** The seed step: candidates are inserted, in one transaction, only
    when the table is empty.  [names] is the list
    [CANDIDATES.split(',').map(trim).filter(Boolean)]. *)
Definition seed (names : list string) (d : db) : outcome db :=
  if bool_decide (candidates d = ∅)
  then match db_transaction (seed_all names) ([], d) with
       | (Ok _, (_, d')) => Ok d'
       | (Thrown e, _) => Thrown e
       end
  else Ok d.

(** ** Configuration, provider and HTTP messages *)

(** What the process reads from its environment at start-up. *)
Record config := Config {
  (** [stripe !== null]: a secret key was set and the client was built *)
  stripe : bool;
  STRIPE_WEBHOOK_SECRET : option string;
  ADMIN_TOKEN : string;
  (** [Number(process.env.VOTE_PRICE_MINOR || 100)] *)
  VOTE_PRICE_MINOR : Z;
  FRONTEND_URL : string;
  INSTAGRAM_URL : string;
  (** [process.env.NODE_ENV === 'production'] *)
  production : bool
}.

(** The argument of [stripe.checkout.sessions.create]. *)
Record session_params := SessionParams {
  sp_currency : string;
  sp_product_name : string;
  sp_unit_amount : Z;
  sp_success_url : string;
  sp_cancel_url : string;
  sp_candidate_id : string;
  sp_votes : string
}.

(** A checkout session as the handlers read it: [session.id] and
    [session.url]. *)
Record session := Session {
  s_id : string;
  s_url : string
}.

(** A webhook event: [event.type] and [event.data.object.id]. *)
Record event := Event {
  ev_type : string;
  ev_object_id : string
}.

(** The provider's answers during one request. [sessions_retrieve]
    gives the [payment_status] of the session it is asked about;
    [constructEvent body sig secret] checks the signature over the raw
    body and throws when it is missing, malformed or wrong. *)
Record provider := Provider {
  sessions_create : session_params -> outcome session;
  sessions_retrieve : string -> outcome string;
  constructEvent : string -> option string -> string -> outcome event
}.

(** The body [req.body] of a checkout request. [candidateId] is an
    integer-valued JSON number or absent ([Number(undefined)] is NaN). *)
Record checkout_body := CheckoutBody {
  b_candidateId : option Z;
  b_votes : JS.value;
  b_currency : option string;
  b_successUrl : option string;
  b_cancelUrl : option string
}.

Inductive request :=
| GET_health
| GET_settings
| GET_tally
| POST_admin_settings (authorization : option string)
                      (q g : option string)
| POST_create_checkout_session (b : checkout_body)
| GET_verify_session (sid : option string)
| POST_stripe_webhook (signature : option string) (raw : string).

(** Response bodies, one constructor per shape the handlers send. *)
Inductive body :=
| BError (error : string)
| BOk
| BSettings (q g instagram : string)
| BTally (rows : list (Z * candidate))
| BSession (id url : string)
| BAlreadyCounted
| BCounted
| BNotPaid
| BReceived (note : option string)
| BText (text : string)
| BUncaught (message : string).

Record response := Response {
  status : Z;
  content : body
}.

Definition json (b : body) : response := Response 200 b.

(** ** The handlers *)

(** [priceMinor(votes)] *)
Definition priceMinor (cfg : config) (v : Z) : Z :=
  VOTE_PRICE_MINOR cfg * Z.max 1 (if v =? 0 then 1 else v).

(** [Number.isFinite(votesRaw) && votesRaw > 0 ? votesRaw : 1] *)
Definition coerce_votes (votesRaw : JS.number) : Z :=
  match votesRaw with
  | JS.Num n => if JS.isFinite votesRaw && (0 <? n) then n else 1
  | JS.NaN | JS.Inf _ => 1
  end.

Definition create_failed (cfg : config) (e : string) : response :=
  Response 500
    (BError (if production cfg then "Failed to create checkout session"
             else "Failed to create checkout session: " ++ e)).

(** [POST /api/create-checkout-session] *)
Definition create_checkout_session (cfg : config) (prov : provider)
    (faults : plan) (d : db) (b : checkout_body) : response * db :=
  let candidateId := b_candidateId b in
  let votesRaw := JS.parseInt (b_votes b) in
  let v := coerce_votes votesRaw in
  let cur := JS.toUpperCase (JS.or_default (b_currency b) "USD") in
  let successUrl :=
    JS.or_default (b_successUrl b)
      (FRONTEND_URL cfg ++ "/?status=success&session_id={CHECKOUT_SESSION_ID}") in
  let cancelUrl :=
    JS.or_default (b_cancelUrl b) (FRONTEND_URL cfg ++ "/?status=cancelled") in
  if negb (stripe cfg)
  then (Response 400 (BError "Stripe is not configured on the server."), d)
  else
    match candidateId with
    | None => (Response 400 (BError "Invalid candidateId"), d)
    | Some cid =>
        match select_candidate cid d with
        | None => (Response 404 (BError "Candidate not found"), d)
        | Some cand =>
            let amount := priceMinor cfg v in
            match sessions_create prov
                    (SessionParams cur
                       (name cand ++ " — " ++ JS.string_of_Z v ++ " vote"
                          ++ (if 1 <? v then "s" else ""))
                       amount successUrl cancelUrl
                       (JS.string_of_Z cid) (JS.string_of_Z v)) with
            | Thrown e => (create_failed cfg e, d)
            | Ok sess =>
                match write (insert_transaction (s_id sess) cid v cur amount)
                            (faults, d) with
                | (Ok _, (_, d')) => (json (BSession (s_id sess) (s_url sess)), d')
                | (Thrown e, (_, d')) => (create_failed cfg e, d')
                end
            end
        end
    end.

(** The request for a session that the endpoint sends for the body
    [b] and the candidate [cand]. *)
Definition params_of (cfg : config) (b : checkout_body) (cid : Z)
    (cand : candidate) : session_params :=
  let v := coerce_votes (JS.parseInt (b_votes b)) in
  SessionParams
    (JS.toUpperCase (JS.or_default (b_currency b) "USD"))
    (name cand ++ " — " ++ JS.string_of_Z v ++ " vote"
       ++ (if 1 <? v then "s" else ""))
    (priceMinor cfg v)
    (JS.or_default (b_successUrl b)
       (FRONTEND_URL cfg ++ "/?status=success&session_id={CHECKOUT_SESSION_ID}"))
    (JS.or_default (b_cancelUrl b) (FRONTEND_URL cfg ++ "/?status=cancelled"))
    (JS.string_of_Z cid) (JS.string_of_Z v).

(** The unit of work of both confirmer paths:
    [db.transaction(()=>{ mark.run(sid); inc.run(trx.votes, trx.candidate_id); })] *)
Definition tx (sid : string) (trx : transaction) : Sql unit :=
  db_transaction (mark sid ;;; inc (votes trx) (candidate_id trx)).
#[global] Arguments tx : simpl never.

(** [GET /api/verify-session] *)
Definition verify_session (cfg : config) (prov : provider)
    (faults : plan) (d : db) (q : option string) : response * db :=
  if negb (JS.truthy_opt q)
  then (Response 400 (BError "Missing session_id"), d)
  else
    let sid := default "" q in
    match select_transaction sid d with
    | None => (Response 404 (BError "Unknown session"), d)
    | Some trx =>
        if paid trx then (json BAlreadyCounted, d)
        else if negb (stripe cfg)
        then (Response 400 (BError "Stripe not configured"), d)
        else
          match sessions_retrieve prov sid with
          | Thrown _ => (Response 500 (BError "Verification failed"), d)
          | Ok payment_status =>
              if bool_decide (payment_status = "paid")
              then
                match tx sid trx (faults, d) with
                | (Ok _, (_, d')) => (json BCounted, d')
                | (Thrown _, (_, d')) =>
                    (Response 500 (BError "Verification failed"), d')
                end
              else (json BNotPaid, d)
          end
    end.

(** [POST /api/stripe/webhook] *)
Definition stripe_webhook (cfg : config) (prov : provider)
    (faults : plan) (d : db) (sig : option string) (raw : string)
    : response * db :=
  if negb (JS.truthy_opt (STRIPE_WEBHOOK_SECRET cfg)) || negb (stripe cfg)
  then (json (BReceived (Some "webhook not configured")), d)
  else
    let secret := default "" (STRIPE_WEBHOOK_SECRET cfg) in
    match constructEvent prov raw sig secret with
    | Thrown e => (Response 400 (BText ("Webhook Error: " ++ e)), d)
    | Ok ev =>
        if bool_decide (ev_type ev = "checkout.session.completed")
        then
          let id := ev_object_id ev in
          match select_transaction id d with
          | Some trx =>
              if negb (paid trx)
              then
                match tx id trx (faults, d) with
                | (Ok _, (_, d')) => (json (BReceived None), d')
                | (Thrown e, (_, d')) =>
                    (Response 400 (BText ("Webhook Error: " ++ e)), d')
                end
              else (json (BReceived None), d)
          | None => (json (BReceived None), d)
          end
        else (json (BReceived None), d)
    end.

(** [POST /api/admin/settings].  The handler has no [try]: a statement
    that throws reaches the framework's error handler (status 500). *)
Definition admin_settings (cfg : config) (faults : plan) (d : db)
    (authorization q g : option string) : response * db :=
  let auth := JS.or_default authorization "" in
  if negb (JS.truthy (ADMIN_TOKEN cfg))
     || negb (bool_decide (auth = "Bearer " ++ ADMIN_TOKEN cfg))
  then (Response 401 (BError "Unauthorized"), d)
  else
    match write (fun d => Ok (update_settings q g d)) (faults, d) with
    | (Ok _, (_, d')) => (json BOk, d')
    | (Thrown e, (_, d')) => (Response 500 (BUncaught e), d')
    end.

(** [GET /api/settings] *)
Definition get_settings (cfg : config) (d : db) : response :=
  let s := settings d in
  json (BSettings (JS.or_default (question s) "")
                  (JS.or_default (glow s) "#00ffff")
                  (INSTAGRAM_URL cfg)).

(** The order of [ORDER BY id ASC] on rows of [candidates]. *)
Definition id_le (a b : Z * candidate) : Prop := a.1 <= b.1.

#[local] Instance id_le_dec : RelDecision id_le.
Proof. intros a b. unfold id_le. apply _. Defined.

(** [GET /api/tally] *)
Definition get_tally (d : db) : response :=
  json (BTally (merge_sort id_le (map_to_list (candidates d)))).

(** The server: one request, with the provider's answers and the
    engine's faults during it. *)
Definition handle (cfg : config) (prov : provider) (faults : plan)
    (d : db) (r : request) : response * db :=
  match r with
  | GET_health => (json BOk, d)
  | GET_settings => (get_settings cfg d, d)
  | GET_tally => (get_tally d, d)
  | POST_admin_settings a q g => admin_settings cfg faults d a q g
  | POST_create_checkout_session b => create_checkout_session cfg prov faults d b
  | GET_verify_session q => verify_session cfg prov faults d q
  | POST_stripe_webhook sig raw => stripe_webhook cfg prov faults d sig raw
  end.

(** A request together with its environment. *)
Record call := Call {
  c_request : request;
  c_provider : provider;
  c_faults : plan
}.

Definition serve (cfg : config) (d : db) (c : call) : response * db :=
  handle cfg (c_provider c) (c_faults c) d (c_request c).

(** The server over a sequence of requests: the responses, in order,
    and the final store. *)
Fixpoint run (cfg : config) (d : db) (cs : list call) : list response * db :=
  match cs with
  | [] => ([], d)
  | c :: rest =>
      let '(r, d1) := serve cfg d c in
      let '(rs, d2) := run cfg d1 rest in
      (r :: rs, d2)
  end.

(** ** The front end's checkout helpers *)

(** The currencies the page offers. *)
Definition currencies : list string :=
  ["USD"; "CAD"; "EUR"; "GBP"; "AUD"; "NZD"; "JPY"; "AED"; "SAR"; "INR";
   "NGN"; "ZAR"; "BRL"; "MXN"; "CHF"; "SEK"; "NOK"; "DKK"; "PLN"; "RON";
   "TRY"; "ILS"; "HKD"; "SGD"; "CZK"].

(** [isValidCurrency(c, set)] *)
Definition isValidCurrency (c : string) (set : list string) : bool :=
  bool_decide (JS.toUpperCase c ∈ set).

(** [normalizeVotes(v)] on an integer-valued number: [Number.isFinite]
    holds and [Math.floor] is the identity there. *)
Definition normalizeVotes (v : Z) : Z :=
  if v <? 1 then 1 else v.

(** [buildSuccessUrl(origin)] *)
Definition buildSuccessUrl (origin : string) : string :=
  origin ++ "/?status=success&session_id={CHECKOUT_SESSION_ID}".

(** The page state [createCheckout] reads. [choiceId] is [null] until a
    button is pressed. *)
Record page := Page {
  choiceId : option Z;
  pg_votes : Z;
  pg_currency : string;
  origin : string
}.

(** What the user gets from pressing "Pay & Cast Vote". *)
Inductive ui_result :=
| Message (text : string)
| Redirect (url : string).

(** [!choiceId] *)
Definition no_choice (c : option Z) : bool :=
  match c with
  | None => true
  | Some n => n =? 0
  end.

(** [createCheckout] up to the [fetch]: the message it shows instead of
    sending, or the body it posts. *)
Definition checkout_request (pg : page) : string + checkout_body :=
  if no_choice (choiceId pg) then inl "Pick YES or NO."
  else if negb (isValidCurrency (pg_currency pg) currencies)
  then inl "Unsupported currency."
  else inr (CheckoutBody (choiceId pg)
                         (JS.JNum (normalizeVotes (pg_votes pg)))
                         (Some (pg_currency pg))
                         (Some (buildSuccessUrl (origin pg)))
                         (Some (origin pg ++ "/?status=cancelled"))).

(** [createCheckout] against the server: the page's outcome and the
    server's store afterwards. *)
Definition createCheckout (cfg : config) (prov : provider) (faults : plan)
    (d : db) (pg : page) : ui_result * db :=
  match checkout_request pg with
  | inl m => (Message m, d)
  | inr b =>
      let '(r, d') := create_checkout_session cfg prov faults d b in
      match content r with
      | BSession _ url =>
          if JS.truthy url then (Redirect url, d')
          else (Message "Unable to create checkout session.", d')
      | BError e =>
          (Message (JS.or_default (Some e) "Unable to create checkout session."), d')
      | _ => (Message "Unable to create checkout session.", d')
      end
  end.

(** The value of a digit sequence read left to right, [acc] being the
    value of the digits already read. *)
Fixpoint value_acc (u : Decimal.uint) (acc : Z) : Z :=
  match u with
  | Decimal.Nil => acc
  | Decimal.D0 l => value_acc l (10 * acc + 0)
  | Decimal.D1 l => value_acc l (10 * acc + 1)
  | Decimal.D2 l => value_acc l (10 * acc + 2)
  | Decimal.D3 l => value_acc l (10 * acc + 3)
  | Decimal.D4 l => value_acc l (10 * acc + 4)
  | Decimal.D5 l => value_acc l (10 * acc + 5)
  | Decimal.D6 l => value_acc l (10 * acc + 6)
  | Decimal.D7 l => value_acc l (10 * acc + 7)
  | Decimal.D8 l => value_acc l (10 * acc + 8)
  | Decimal.D9 l => value_acc l (10 * acc + 9)
  end.

(** ** Vocabulary of the properties *)

(** The store after the confirmer's unit of work for [trx] has been
    applied in full. *)
Definition counted (sid : string) (trx : transaction) (d : db) : db :=
  inc_tally (votes trx) (candidate_id trx) (mark_paid sid d).

(** [c] is a confirmation call for the session [sid]: the pull path
    asked about [sid], or a push whose event, if the provider accepts
    the request, is about [sid]. *)
Definition confirms (sid : string) (c : call) : Prop :=
  match c_request c with
  | GET_verify_session q => q = Some sid
  | POST_stripe_webhook sig raw =>
      forall secret ev,
        constructEvent (c_provider c) raw sig secret = Ok ev ->
        ev_object_id ev = sid
  | _ => False
  end.

(** What a confirmation call answers once the transaction is paid: the
    pull path says "already counted"; the push path sends what it sends
    for any notification, its acknowledgement or its signature error. *)
Definition paid_reply (c : call) (r : response) : Prop :=
  match c_request c with
  | GET_verify_session _ => r = json BAlreadyCounted
  | POST_stripe_webhook _ _ =>
      (exists note, r = json (BReceived note))
      \/ (exists e, r = Response 400 (BText ("Webhook Error: " ++ e)))
  | _ => False
  end.

(** Both updates of the confirmation of the pending row [trx] are in
    [d']: the session's row is that row with [paid] set, and the tally
    of its candidate, [cand] before, has grown by the row's votes. *)
Definition both_applied (sid : string) (trx : transaction) (cand : candidate)
    (d' : db) : Prop :=
  select_transaction sid d'
  = Some (Transaction (session_id trx) (candidate_id trx) (votes trx)
                      (currency trx) (amount_total trx) true)
  /\ candidates d' !! candidate_id trx
     = Some (Candidate (name cand) (tally cand + votes trx)).

(** Neither update is in [d']: the session's row is the pending row and
    the candidate is as before. *)
Definition none_applied (sid : string) (trx : transaction) (cand : candidate)
    (d' : db) : Prop :=
  select_transaction sid d' = Some trx
  /\ candidates d' !! candidate_id trx = Some cand.

(** The confirmer's two routes. *)
Definition is_confirmer (r : request) : bool :=
  match r with
  | GET_verify_session _ | POST_stripe_webhook _ _ => true
  | _ => false
  end.




(** Every tally is a natural number and every recorded vote count is
    positive. *)
Definition ledger_ok (d : db) : Prop :=
  (forall id c, candidates d !! id = Some c -> 0 <= tally c)
  /\ Forall (fun t => 1 <= votes t) (transactions d).

(** No candidate of [d] is lost or renamed in [d'], and none has a
    smaller tally there. *)
Definition tally_le (d d' : db) : Prop :=
  forall id c,
    candidates d !! id = Some c ->
    exists c', candidates d' !! id = Some c'
               /\ name c' = name c /\ tally c <= tally c'.

(** The state of the ledger right after the seed. *)
Definition zero_tallies (d : db) : Prop :=
  (forall id c, candidates d !! id = Some c -> tally c = 0)
  /\ transactions d = [].

(** What one request can do to the store: nothing, a settings update,
    one new pending row with a positive vote count, or the confirmer's
    unit of work for a recorded transaction. *)
Inductive effect (d : db) : db -> Prop :=
| ef_none : effect d d
| ef_settings q g : effect d (update_settings q g d)
| ef_pending row :
    1 <= votes row ->
    effect d (Db (candidates d) (transactions d ++ [row]) (settings d))
| ef_counted sid trx :
    select_transaction sid d = Some trx ->
    effect d (counted sid trx d).

(** The credential check of the settings write passes. *)
Definition authorized (cfg : config) (authorization : option string) : Prop :=
  ADMIN_TOKEN cfg <> "" /\ authorization = Some ("Bearer " ++ ADMIN_TOKEN cfg).

(** The push path is switched on. *)
Definition webhook_configured (cfg : config) : Prop :=
  JS.truthy_opt (STRIPE_WEBHOOK_SECRET cfg) = true /\ stripe cfg = true.

(** ** A running example

    The example of the specification: candidate 1 "Yes" with tally 5,
    a price of 100 minor units per vote. *)

Definition cfg0 : config :=
  Config true (Some "whsec_1") "s3cret" 100
         "http://localhost:5173" "https://instagram.com/Wiz_pharoah" false.

(** The same server without a webhook secret. *)
Definition cfg_no_webhook : config :=
  Config true None "s3cret" 100
         "http://localhost:5173" "https://instagram.com/Wiz_pharoah" false.

Definition db5 : db :=
  Db (<[1 := Candidate "Yes" 5]> (<[2 := Candidate "No" 0]> ∅)) []
     (Settings (Some "Is this week's answer YES?") (Some "#00ffff")).

(** A provider that creates the session [cs_1], reports it with the
    given payment status, and accepts every notification as the
    completion of [cs_1]. *)
Definition provider_ok (payment_status : string) : provider :=
  Provider (fun _ => Ok (Session "cs_1" "https://checkout.stripe.com/c/pay/cs_1"))
           (fun _ => Ok payment_status)
           (fun _ _ _ => Ok (Event "checkout.session.completed" "cs_1")).

(** A provider that is unreachable and rejects every signature. *)
Definition provider_down : provider :=
  Provider (fun _ => Thrown "connection error")
           (fun _ => Thrown "connection error")
           (fun _ _ _ => Thrown "No signatures found matching the expected signature for payload").

(** The store of a first start with [CANDIDATES] unset: "Yes,No". *)
Definition db_seeded : db :=
  Db (<[2 := Candidate "No" 0]> (<[1 := Candidate "Yes" 0]> ∅)) []
     (Settings (Some "Is this week's answer YES?") (Some "#00ffff")).

(** A checkout for two votes, its confirmation on both paths, and a
    settings write. *)
Definition session_calls : list call :=
  [ Call (POST_create_checkout_session
            (CheckoutBody (Some 1) (JS.JStr "2") None None None))
         (provider_ok "unpaid") [];
    Call (GET_verify_session (Some "cs_1")) (provider_ok "paid") [];
    Call (POST_stripe_webhook (Some "t=1,v1=5257a8") "{}")
         (provider_ok "paid") [];
    Call (POST_admin_settings (Some "Bearer s3cret") None (Some "#ff00ff"))
         provider_down [] ].

Definition trx_pending : transaction :=
  Transaction "cs_1" 1 3 "USD" 300 false.

Definition db5_pending : db :=
  Db (candidates db5) [trx_pending] (settings db5).

Definition db5_paid : db := counted "cs_1" trx_pending db5_pending.

Definition body3 (cur : option string) : checkout_body :=
  CheckoutBody (Some 1) (JS.JNum 3) cur None None.

(** ** The ledger as a whole *)

(** The votes of the paid transactions of candidate [id]. *)
Fixpoint paid_votes (id : Z) (l : list transaction) : Z :=
  match l with
  | [] => 0
  | t :: r =>
      (if paid t && bool_decide (candidate_id t = id) then votes t else 0)
      + paid_votes id r
  end.

(** A row as the checkout endpoint writes it under the price of [cfg]:
    it refers to a candidate of the store, counts at least one vote and
    costs the price per vote times its votes. *)
Definition row_ok (cfg : config) (d : db) (t : transaction) : Prop :=
  is_Some (candidates d !! candidate_id t)
  /\ 1 <= votes t
  /\ amount_total t = VOTE_PRICE_MINOR cfg * votes t.

(** The ledger is sound: session ids identify rows, every row is as the
    endpoint writes it, and every tally is the sum of the votes of the
    candidate's paid transactions. *)
Record ledger_sound (cfg : config) (d : db) : Prop := LedgerSound {
  sound_unique : NoDup (session_id <$> transactions d);
  sound_rows : Forall (row_ok cfg d) (transactions d);
  sound_tally :
    forall id c,
      candidates d !! id = Some c -> tally c = paid_votes id (transactions d)
}.

(** What one request does to the store, in full: nothing; a settings
    update; a pending row for a new session id and an existing candidate;
    or the unit of work for a pending transaction. *)
Inductive step_effect (cfg : config) (d : db) : db -> Prop :=
| se_none : step_effect cfg d d
| se_settings q g : step_effect cfg d (update_settings q g d)
| se_pending sid cid v cur :
    select_transaction sid d = None ->
    is_Some (candidates d !! cid) ->
    1 <= v ->
    step_effect cfg d
      (Db (candidates d)
          (transactions d
             ++ [Transaction sid cid v cur (VOTE_PRICE_MINOR cfg * v) false])
          (settings d))
| se_counted sid trx :
    select_transaction sid d = Some trx ->
    paid trx = false ->
    step_effect cfg d (counted sid trx d).

(** What [UPDATE transactions SET paid=1 WHERE session_id=?] does to one
    row. *)
Definition mark_row (sid : string) (t : transaction) : transaction :=
  if bool_decide (session_id t = sid) then set_paid t else t.

(** [t'] is the row [t], except that it may have become paid. *)
Definition row_kept (t t' : transaction) : Prop :=
  session_id t' = session_id t
  /\ candidate_id t' = candidate_id t
  /\ votes t' = votes t
  /\ currency t' = currency t
  /\ amount_total t' = amount_total t
  /\ (paid t = true -> paid t' = true).

(** Every row of [d] is still in [d'], at its place. *)
Definition rows_kept (d d' : db) : Prop :=
  forall i t,
    transactions d !! i = Some t ->
    exists t', transactions d' !! i = Some t' /\ row_kept t t'.

(** Rows in strictly ascending [id]. *)
Definition id_lt (a b : Z * candidate) : Prop := a.1 < b.1.

(** ** What the seed leaves in the store *)

(** The rows the seed writes for the configured names, the first with
    id [k]: consecutive ids, tally 0. *)
Fixpoint rows_from (k : Z) (names : list string) : list (Z * candidate) :=
  match names with
  | [] => []
  | n :: rest => (k, Candidate n 0) :: rows_from (k + 1) rest
  end.

(** The row with id [id] after the names [done] have been inserted
    into an empty table. *)
Definition seeded_lookup (done : list string) (id : Z) : option candidate :=
  if bool_decide (1 <= id)
  then (fun n => Candidate n 0) <$> done !! Z.to_nat (id - 1)
  else None.

Definition seeded (done : list string) (tbl : gmap Z candidate) : Prop :=
  forall id, tbl !! id = seeded_lookup done id.

(** ** The page after the redirect back from the provider *)

(** [d.ok] of a parsed response body: only the three [{ok:true, ...}]
    shapes have a truthy [ok]. *)
Definition body_ok (b : body) : bool :=
  match b with
  | BOk | BAlreadyCounted | BCounted => true
  | _ => false
  end.

(** [d.alreadyCounted] *)
Definition body_alreadyCounted (b : body) : bool :=
  match b with
  | BAlreadyCounted => true
  | _ => false
  end.

(** The bodies [r.json()] can parse: the handlers' JSON; a plain text
    or HTML body makes it reject. *)
Definition is_json (b : body) : bool :=
  match b with
  | BText _ | BUncaught _ => false
  | _ => true
  end.

(** The [then]/[catch] chain on the answer of [/api/verify-session]. *)
Definition verify_message (r : response) : string :=
  if is_json (content r)
  then if body_ok (content r)
       then if body_alreadyCounted (content r)
            then "Payment already verified earlier."
            else "Payment verified! Votes counted."
       else "Payment not verified yet. Refresh in a moment."
  else "Verification failed. Contact support with your receipt.".

(** The effect that runs when the page loads with the query parameters
    [status] and [session_id] ([URLSearchParams.get] gives a string or
    [null]): the message it sets, if any, and the server's store
    afterwards.  The session id reaches the server as it is
    ([encodeURIComponent], then the server's query parser). *)
Definition after_redirect (cfg : config) (prov : provider) (faults : plan)
    (d : db) (status session_id : option string) : option string * db :=
  if bool_decide (status = Some "success") && JS.truthy_opt session_id
  then
    let '(r, d') := verify_session cfg prov faults d session_id in
    (Some (verify_message r), d')
  else if bool_decide (status = Some "cancelled")
  then (Some "Payment cancelled. No votes were cast.", d)
  else (None, d).

(** ** The CORS middleware *)

(** [s.replace(/\/$/, '')]: the string without its last character when
    that is a slash. *)
Fixpoint strip_slash (s : string) : string :=
  match s with
  | EmptyString => EmptyString
  | String c r =>
      match r with
      | EmptyString => if bool_decide (c = "/"%char) then EmptyString else s
      | String _ _ => String c (strip_slash r)
      end
  end.

(** [s.endsWith(suffix)] *)
Fixpoint endsWith (s suffix : string) : bool :=
  bool_decide (s = suffix)
  || match s with
     | EmptyString => false
     | String _ r => endsWith r suffix
     end.

(** [isAllowedOrigin(origin)].  [url_host o] stands for
    [new URL(o).host], which throws on what is not a URL; [origin] is
    the request's [Origin] header, if any. *)
Definition isAllowedOrigin (url_host : string -> outcome string)
    (cfg : config) (origin : option string) : bool :=
  if negb (JS.truthy_opt origin) then true
  else
    let o := strip_slash (default "" origin) in
    if bool_decide (o = FRONTEND_URL cfg) then true
    else
      match url_host o with
      | Thrown _ => false
      | Ok host =>
          if endsWith host ".app.github.dev" then true
          else bool_decide (o = "http://localhost:5173")
               || bool_decide (o = "https://localhost:5173")
      end.

(** [allowCors(origin)], the check of the revision for Render. *)
Definition allowCors (url_host : string -> outcome string)
    (cfg : config) (origin : option string) : bool :=
  if negb (JS.truthy_opt origin) then false
  else
    let o := strip_slash (default "" origin) in
    if bool_decide (o = FRONTEND_URL cfg) then true
    else
      match url_host o with
      | Thrown _ => false
      | Ok host =>
          if endsWith host ".onrender.com" then true
          else if endsWith host ".app.github.dev" then true
          else bool_decide (o = "http://localhost:5173")
               || bool_decide (o = "https://localhost:5173")
      end.

(** The five headers the middleware sets for an allowed origin. *)
Definition cors_headers (origin : option string) : list (string * string) :=
  [ ("Access-Control-Allow-Origin", JS.or_default origin "*");
    ("Vary", "Origin");
    ("Access-Control-Allow-Credentials", "true");
    ("Access-Control-Allow-Headers", "Content-Type, Authorization");
    ("Access-Control-Allow-Methods", "GET,POST,OPTIONS") ].

(** The first middleware in front of a route: it sets the headers, ends
    an OPTIONS request with status 204, and otherwise calls [next],
    here the route's handler on the request [r]. *)
Definition app (url_host : string -> outcome string) (cfg : config)
    (prov : provider) (faults : plan) (d : db)
    (origin : option string) (method : string) (r : request)
    : list (string * string) * response * db :=
  let headers :=
    if isAllowedOrigin url_host cfg origin then cors_headers origin else [] in
  if bool_decide (method = "OPTIONS")
  then (headers, Response 204 (BText ""), d)
  else
    let '(res, d') := handle cfg prov faults d r in
    (headers, res, d').

(** ** The earlier revision of the server

    The file's earlier revision has a route to seed candidates on
    demand, and its pull path asks for the Stripe client before
    anything else. *)

(** What [POST /api/admin/seed] answers. *)
Inductive seed_reply :=
| SeedUnauthorized
| SeedOk (rows : list (Z * candidate))
| SeedUncaught (message : string).

(** The key an INSERT into the AUTOINCREMENT table [candidates] takes:
    one more than the largest key the table has ever given out.  [seq]
    is the largest key given out so far, as [sqlite_sequence] records
    it. *)
Definition new_key (seq : Z) (tbl : gmap Z candidate) : Z :=
  Z.max (seq + 1) (next_id tbl).

(** [INSERT OR IGNORE INTO candidates (name) VALUES (?)] with the key
    [id] taken for the row: a name that is taken is skipped without an
    error, and the key is used up all the same. *)
Definition insert_or_ignore_candidate (id : Z) (n : string) (d : db)
    : outcome db :=
  if name_taken n (candidates d) then Ok d
  else Ok (Db (<[id := Candidate n 0]> (candidates d))
              (transactions d) (settings d)).

(** [for (const n of arr) ins.run(n)], each statement taking the next
    key. *)
Fixpoint seed_missing (seq : Z) (names : list string) : Sql unit :=
  match names with
  | [] => sql_ret tt
  | n :: rest =>
      fun st =>
        let id := new_key seq (candidates st.2) in
        (write (insert_or_ignore_candidate id n) ;;; seed_missing id rest) st
  end.

(** [POST /api/admin/seed]; [names] is the configured list, as for the
    seed at start-up, and [seq] the largest key [candidates] has given
    out before the call. *)
Definition admin_seed (cfg : config) (names : list string) (seq : Z)
    (faults : plan) (d : db) (authorization : option string)
    : seed_reply * db :=
  let auth := JS.or_default authorization "" in
  if negb (bool_decide (auth = "Bearer " ++ ADMIN_TOKEN cfg))
  then (SeedUnauthorized, d)
  else
    match db_transaction (seed_missing seq names) (faults, d) with
    | (Ok _, (_, d')) =>
        (SeedOk (merge_sort id_le (map_to_list (candidates d'))), d')
    | (Thrown e, (_, d')) => (SeedUncaught e, d')
    end.

(** [GET /api/verify-session] of the earlier revision: the client is
    asked for first. *)
Definition verify_session_early (cfg : config) (prov : provider)
    (faults : plan) (d : db) (q : option string) : response * db :=
  if negb (stripe cfg)
  then (Response 400 (BError "Stripe not configured"), d)
  else if negb (JS.truthy_opt q)
  then (Response 400 (BError "Missing session_id"), d)
  else
    let sid := default "" q in
    match select_transaction sid d with
    | None => (Response 404 (BError "Unknown session"), d)
    | Some trx =>
        if paid trx then (json BAlreadyCounted, d)
        else
          match sessions_retrieve prov sid with
          | Thrown _ => (Response 500 (BError "Verification failed"), d)
          | Ok payment_status =>
              if bool_decide (payment_status = "paid")
              then
                match tx sid trx (faults, d) with
                | (Ok _, (_, d')) => (json BCounted, d')
                | (Thrown _, (_, d')) =>
                    (Response 500 (BError "Verification failed"), d')
                end
              else (json BNotPaid, d)
          end
    end.

(** Every candidate row of [d] is unchanged in [d'], and so are the
    transactions and the settings. *)
Definition rows_stay (d d' : db) : Prop :=
  (forall id c, candidates d !! id = Some c -> candidates d' !! id = Some c)
  /\ transactions d' = transactions d
  /\ settings d' = settings d.

(** ** The pull path around its [await]

    The pull handler runs in two turns of the event loop: the first
    ends when the handler sends its request to the provider, the second
    starts with the provider's answer.  Other handlers can run in
    between; the push handler, which awaits nothing, runs in one
    turn. *)

(** What the first turn leaves: a response, or the session and the row
    it has read, waiting for the provider. *)
Inductive verify_turn :=
| Answered (r : response)
| Awaiting (sid : string) (trx : transaction).

(** [GET /api/verify-session] up to the [await]. *)
Definition verify_session_begin (cfg : config) (d : db) (q : option string)
    : verify_turn :=
  if negb (JS.truthy_opt q)
  then Answered (Response 400 (BError "Missing session_id"))
  else
    let sid := default "" q in
    match select_transaction sid d with
    | None => Answered (Response 404 (BError "Unknown session"))
    | Some trx =>
        if paid trx then Answered (json BAlreadyCounted)
        else if negb (stripe cfg)
        then Answered (Response 400 (BError "Stripe not configured"))
        else Awaiting sid trx
    end.

(** [GET /api/verify-session] from the provider's answer on, with the
    row [trx] the first turn has read, on the store as it is by then. *)
Definition verify_session_resume (prov : provider) (faults : plan) (d : db)
    (sid : string) (trx : transaction) : response * db :=
  match sessions_retrieve prov sid with
  | Thrown _ => (Response 500 (BError "Verification failed"), d)
  | Ok payment_status =>
      if bool_decide (payment_status = "paid")
      then
        match tx sid trx (faults, d) with
        | (Ok _, (_, d')) => (json BCounted, d')
        | (Thrown _, (_, d')) =>
            (Response 500 (BError "Verification failed"), d')
        end
      else (json BNotPaid, d)
  end.

(** * Facts about the built-ins *)

Module JSFacts.
Import JS.

Lemma digits_string_of_uint (u : Decimal.uint) (acc : Z) :
  digits (NilEmpty.string_of_uint u) acc = value_acc u acc.
Proof.
  revert acc. induction u; intros acc; simpl; try reflexivity; apply IHu.
Qed.

Lemma value_acc_pos (l : Decimal.uint) (acc : positive) :
  value_acc l (Z.pos acc) = Z.pos (Pos.of_uint_acc l acc).
Proof.
  revert acc. induction l; intros acc; simpl; try reflexivity;
    rewrite <- IHl; f_equal; lia.
Qed.

Lemma value_acc_of_uint (l : Decimal.uint) :
  value_acc l 0 = Z.of_N (Pos.of_uint l).
Proof.
  induction l; simpl; try reflexivity; try assumption;
    apply (value_acc_pos l).
Qed.

(** Below 2^53 an integer is a Number. *)
Lemma round53_safe (m : Z) : m < 2 ^ 53 -> round53 m = m.
Proof.
  intros H. unfold round53.
  destruct (Z.ltb_spec m (2 ^ 53)); [reflexivity | lia].
Qed.

Lemma round53_nonneg (m : Z) : 0 <= m -> 0 <= round53 m.
Proof.
  intros H. unfold round53.
  destruct (Z.ltb_spec m (2 ^ 53)); [assumption|].
  set (e := Z.log2 m - 52).
  assert (0 <= m / 2 ^ e) by (apply Z.div_pos; [lia | apply Z.pow_pos_nonneg; lia || (pose proof (Z.log2_le_mono (2 ^ 53) m ltac:(lia)) as L; rewrite Z.log2_pow2 in L; lia)]).
  assert (0 <= 2 ^ e) by (apply Z.pow_nonneg; lia).
  destruct (_ || _); nia.
Qed.

Lemma to_number_safe (n : Z) :
  - 2 ^ 53 < n < 2 ^ 53 -> to_number n = Num n.
Proof.
  intros H. unfold to_number. rewrite round53_safe by lia.
  destruct (Z.leb_spec (2 ^ 1024) (Z.abs n)) as [L|_].
  - assert (2 ^ 53 < 2 ^ 1024) by (apply Z.pow_lt_mono_r; lia). lia.
  - f_equal. lia.
Qed.

Lemma to_number_nonpos (n x : Z) : n <= 0 -> to_number n = Num x -> x <= 0.
Proof.
  intros H. unfold to_number.
  pose proof (round53_nonneg (Z.abs n) ltac:(lia)).
  destruct (_ <=? _); [done|]. intros [= <-]. nia.
Qed.

Lemma to_number_not_NaN (n : Z) : to_number n <> NaN.
Proof. unfold to_number. by destruct (_ <=? _). Qed.

Lemma digits_nonneg (s : string) (acc : Z) : 0 <= acc -> 0 <= digits s acc.
Proof.
  revert acc. induction s as [|c s IH]; intros acc H; simpl; [done|].
  destruct (digit_of c) as [d|] eqn:E; [|done].
  apply IH. unfold digit_of in E.
  destruct (_ && _) eqn:B; [|done]. injection E as <-.
  apply andb_true_iff in B as [B _]. lia.
Qed.

Lemma digit_not_sign (c : ascii) (r : string) :
  is_Some (digit_of c) ->
  parseInt_string (String c r) = to_number (digits (String c r) 0).
Proof.
  intros [n Hn].
  assert (E : skip_space (String c r) = String c r
              /\ strip_sign (String c r) = (false, String c r)
              /\ starts_with_digit (String c r) = true).
  { destruct c as [[] [] [] [] [] [] [] []];
      vm_compute in Hn; try discriminate Hn; repeat split; reflexivity. }
  destruct E as (E1 & E2 & E3).
  unfold parseInt_string. rewrite E1, E2, E3. reflexivity.
Qed.

Lemma string_of_uint_head (u : Decimal.uint) :
  u <> Decimal.Nil ->
  exists c r, NilEmpty.string_of_uint u = String c r /\ is_Some (digit_of c).
Proof.
  destruct u; intros H; try congruence; simpl;
    eexists _, _; (split; [reflexivity | vm_compute; eauto]).
Qed.

Lemma digits_pos (p : positive) :
  digits (NilEmpty.string_of_uint (Pos.to_uint p)) 0 = Z.pos p.
Proof.
  by rewrite digits_string_of_uint, value_acc_of_uint, Unsigned.of_to.
Qed.

Lemma parseInt_pos (p : positive) :
  parseInt_string (NilEmpty.string_of_uint (Pos.to_uint p))
  = to_number (Z.pos p).
Proof.
  destruct (string_of_uint_head (Pos.to_uint p)) as (c & r & E & Hc).
  { apply Unsigned.to_uint_nonnil. }
  rewrite E, (digit_not_sign c r Hc), <- E. by rewrite digits_pos.
Qed.

Lemma string_of_pos (p : positive) :
  NilZero.string_of_uint (Pos.to_uint p)
  = NilEmpty.string_of_uint (Pos.to_uint p).
Proof.
  pose proof (Unsigned.to_uint_nonnil p) as H.
  unfold NilZero.string_of_uint. destruct (Pos.to_uint p); congruence.
Qed.

Lemma parseInt_minus (s : string) :
  parseInt_string (String "-" s)
  = if starts_with_digit s then to_number (- digits s 0) else NaN.
Proof. reflexivity. Qed.

Lemma decimal_pos (p : positive) :
  decimal (Z.pos p) = NilEmpty.string_of_uint (Pos.to_uint p).
Proof. unfold decimal. simpl. apply string_of_pos. Qed.

Lemma decimal_neg (p : positive) :
  decimal (Z.neg p) = String "-" (decimal (Z.pos p)).
Proof. reflexivity. Qed.

Lemma to_number_0 : to_number 0 = Num 0.
Proof. apply to_number_safe. lia. Qed.

(** Parsing the decimal digits of an integer gives the Number for the
    integer. *)
Lemma parseInt_decimal (n : Z) : parseInt_string (decimal n) = to_number n.
Proof.
  destruct n as [|p|p].
  - rewrite to_number_0.
    change (decimal 0) with "0". rewrite (digit_not_sign "0" "").
    + apply to_number_0.
    + vm_compute. eauto.
  - rewrite decimal_pos. apply parseInt_pos.
  - rewrite decimal_neg, decimal_pos, parseInt_minus.
    destruct (string_of_uint_head (Pos.to_uint p)) as (c & r & E & Hc).
    { apply Unsigned.to_uint_nonnil. }
    rewrite E. unfold starts_with_digit.
    rewrite bool_decide_eq_true_2 by assumption.
    by rewrite <- E, digits_pos.
Qed.

Lemma string_of_double_safe (x : Z) :
  x < 2 ^ 53 -> string_of_double x = decimal x.
Proof.
  intros H. unfold string_of_double.
  destruct (Z.ltb_spec x (2 ^ 53)); [reflexivity | lia].
Qed.

(** The String of a safe integer has all its decimal digits. *)
Lemma string_of_Z_safe (n : Z) :
  - 2 ^ 53 < n < 2 ^ 53 -> string_of_Z n = decimal n.
Proof.
  intros H. unfold string_of_Z. rewrite to_number_safe by done.
  destruct (Z.ltb_spec n 0).
  - rewrite string_of_double_safe by lia.
    destruct n as [|p|p]; try lia. reflexivity.
  - apply string_of_double_safe. lia.
Qed.

Lemma parseInt_string_of_Z (n : Z) :
  - 2 ^ 53 < n < 2 ^ 53 -> parseInt_string (string_of_Z n) = Num n.
Proof.
  intros H.
  by rewrite string_of_Z_safe, parseInt_decimal, to_number_safe.
Qed.

(** [parseInt] of a safe integer is that integer. *)
Lemma parseInt_JNum (n : Z) :
  - 2 ^ 53 < n < 2 ^ 53 -> parseInt (JNum n) = Num n.
Proof. apply parseInt_string_of_Z. Qed.

(** [parseInt] after a minus sign never reads a positive number. *)
Lemma parseInt_minus_nonpos (s : string) (x : Z) :
  parseInt_string (String "-" s) = Num x -> x <= 0.
Proof.
  rewrite parseInt_minus. destruct (starts_with_digit s); [|done].
  apply to_number_nonpos.
  pose proof (digits_nonneg s 0 ltac:(lia)). lia.
Qed.

(** [parseInt] of a number that is not positive is not positive. *)
Lemma parseInt_JNum_nonpos (n x : Z) :
  n <= 0 -> parseInt (JNum n) = Num x -> x <= 0.
Proof.
  intros H. unfold parseInt, ToString, string_of_Z.
  destruct (to_number n) as [|y|[]] eqn:E.
  - done.
  - pose proof (to_number_nonpos _ _ H E) as Hy.
    destruct (Z.ltb_spec y 0).
    + apply parseInt_minus_nonpos.
    + assert (y = 0) as -> by lia.
      rewrite string_of_double_safe by lia.
      rewrite parseInt_decimal, to_number_0. intros [= <-]. lia.
  - done.
  - done.
Qed.







End JSFacts.

(** * Facts about the store and the unit of work *)

Module StoreFacts.

Lemma select_transaction_In sid d trx :
  select_transaction sid d = Some trx -> In trx (transactions d).
Proof.
  unfold select_transaction. intros H. by apply find_some in H as [H _].
Qed.

Lemma select_mark_paid sid d trx :
  select_transaction sid d = Some trx ->
  select_transaction sid (mark_paid sid d) = Some (set_paid trx).
Proof.
  unfold select_transaction, mark_paid; simpl.
  induction (transactions d) as [|t l IH]; simpl; [done|].
  case_bool_decide as E; simpl.
  - intros [= <-]. by rewrite bool_decide_eq_true_2.
  - rewrite bool_decide_eq_false_2 by done. apply IH.
Qed.

Lemma select_counted sid d trx :
  select_transaction sid d = Some trx ->
  select_transaction sid (counted sid trx d) = Some (set_paid trx).
Proof. intros H. unfold counted. by apply select_mark_paid in H. Qed.

(** The unit of work is all or nothing, whatever the engine does. *)
Lemma tx_cases sid trx faults d :
  (exists p, tx sid trx (faults, d) = (Ok tt, (p, counted sid trx d)))
  \/ (exists e p, tx sid trx (faults, d) = (Thrown e, (p, d))).
Proof.
  unfold tx, db_transaction, mark, inc, write, sql_bind, counted.
  destruct faults as [|[] [|[] [|[] [|[] ?]]]]; simpl; eauto.
Qed.

(** A transaction ends in the store it began with, or in the store
    its body produced. *)
Lemma db_transaction_cases {A} (fn : Sql A) p d o p' d' :
  db_transaction fn (p, d) = (o, (p', d')) ->
  d' = d \/ exists a p1 p2, fn (p1, d) = (Ok a, (p2, d')).
Proof.
  unfold db_transaction.
  destruct (next_fault p) as [[] p1]; [intros [= <- <- <-]; by left|].
  destruct (fn (p1, d)) as [[a|e] [p2 d2]] eqn:E;
    [|intros [= <- <- <-]; by left].
  destruct (next_fault p2) as [[] p3]; intros [= <- <- <-];
    [by left|right; eauto].
Qed.

Lemma tx_no_fault sid trx d :
  tx sid trx ([], d) = (Ok tt, ([], counted sid trx d)).
Proof. reflexivity. Qed.

Lemma truthy_nonempty s : s <> "" -> JS.truthy s = true.
Proof. by destruct s. Qed.

End StoreFacts.

(** * The confirmer on a paid and on a pending transaction *)

Section Confirmer.
Import StoreFacts.
Variable cfg : config.
Variables (sid : string) (trx : transaction).

Lemma verify_paid prov faults d :
  select_transaction sid d = Some trx -> paid trx = true -> sid <> "" ->
  verify_session cfg prov faults d (Some sid) = (json BAlreadyCounted, d).
Proof.
  intros Hsel Hpaid Hne. unfold verify_session. simpl.
  rewrite (truthy_nonempty _ Hne). simpl. by rewrite Hsel, Hpaid.
Qed.

Lemma webhook_paid prov faults d sig raw r d' :
  select_transaction sid d = Some trx -> paid trx = true ->
  (forall secret ev, constructEvent prov raw sig secret = Ok ev ->
                     ev_object_id ev = sid) ->
  stripe_webhook cfg prov faults d sig raw = (r, d') ->
  d' = d /\ ((exists note, r = json (BReceived note))
             \/ (exists e, r = Response 400 (BText ("Webhook Error: " ++ e)))).
Proof.
  intros Hsel Hpaid Hev. unfold stripe_webhook.
  destruct (_ || _); [intros [= <- <-]; eauto|].
  destruct (constructEvent _ _ _ _) as [ev|e] eqn:E;
    [|intros [= <- <-]; eauto].
  apply Hev in E. case_bool_decide; [|intros [= <- <-]; eauto].
  rewrite E, Hsel, Hpaid. simpl. intros [= <- <-]; eauto.
Qed.

Lemma serve_confirm_paid d c r d' :
  select_transaction sid d = Some trx -> paid trx = true -> sid <> "" ->
  confirms sid c -> serve cfg d c = (r, d') ->
  d' = d /\ paid_reply c r.
Proof.
  intros Hsel Hpaid Hne. destruct c as [req prov faults].
  unfold confirms, paid_reply, serve; simpl.
  destruct req; simpl; try done.
  - intros ->. rewrite verify_paid by done. by intros [= <- <-].
  - intros Hev H. by eapply webhook_paid.
Qed.

Lemma verify_pending prov faults d q r d' :
  select_transaction sid d = Some trx -> paid trx = false ->
  q = Some sid ->
  verify_session cfg prov faults d q = (r, d') ->
  d' = d \/ d' = counted sid trx d.
Proof.
  intros Hsel Hpaid ->. unfold verify_session. simpl.
  destruct (JS.truthy sid); simpl; [|intros [= <- <-]; eauto].
  rewrite Hsel, Hpaid.
  destruct (stripe cfg); simpl; [|intros [= <- <-]; eauto].
  destruct (sessions_retrieve _ _); [|intros [= <- <-]; eauto].
  case_bool_decide; [|intros [= <- <-]; eauto].
  destruct (tx_cases sid trx faults d) as [(p & ->)|(e & p & ->)];
    intros [= <- <-]; eauto.
Qed.

Lemma webhook_pending prov faults d sig raw r d' :
  select_transaction sid d = Some trx -> paid trx = false ->
  (forall secret ev, constructEvent prov raw sig secret = Ok ev ->
                     ev_object_id ev = sid) ->
  stripe_webhook cfg prov faults d sig raw = (r, d') ->
  d' = d \/ d' = counted sid trx d.
Proof.
  intros Hsel Hpaid Hev. unfold stripe_webhook.
  destruct (_ || _); [intros [= <- <-]; eauto|].
  destruct (constructEvent _ _ _ _) as [ev|e] eqn:E;
    [|intros [= <- <-]; eauto].
  apply Hev in E. case_bool_decide; [|intros [= <- <-]; eauto].
  rewrite E. cbv zeta. rewrite Hsel, Hpaid. cbn [negb].
  destruct (tx_cases sid trx faults d) as [(p & ->)|(e & p & ->)];
    intros [= <- <-]; eauto.
Qed.

Lemma serve_confirm_pending d c r d' :
  select_transaction sid d = Some trx -> paid trx = false ->
  confirms sid c -> serve cfg d c = (r, d') ->
  d' = d \/ d' = counted sid trx d.
Proof.
  intros Hsel Hpaid. destruct c as [req prov faults].
  unfold confirms, serve; simpl.
  destruct req; simpl; try done.
  - intros Hq H. by eapply verify_pending.
  - intros Hev H. by eapply webhook_pending.
Qed.

Lemma run_confirm_paid cs : forall d rs d',
  select_transaction sid d = Some trx -> paid trx = true -> sid <> "" ->
  Forall (confirms sid) cs -> run cfg d cs = (rs, d') ->
  d' = d /\ Forall2 paid_reply cs rs.
Proof.
  induction cs as [|c cs IH]; intros d rs d' Hsel Hpaid Hne Hcs; simpl.
  - intros [= <- <-]. auto.
  - apply Forall_cons in Hcs as [Hc Hcs].
    destruct (serve cfg d c) as [r d1] eqn:E1.
    destruct (run cfg d1 cs) as [rs' d2] eqn:E2.
    intros [= <- <-].
    destruct (serve_confirm_paid _ _ _ _ Hsel Hpaid Hne Hc E1) as [-> Hr].
    destruct (IH _ _ _ Hsel Hpaid Hne Hcs E2) as [-> Hrs].
    auto.
Qed.

End Confirmer.

(** * Payment confirmation *)

Lemma counted_tally sid trx d cand :
  candidates d !! candidate_id trx = Some cand ->
  candidates (counted sid trx d) !! candidate_id trx
  = Some (Candidate (name cand) (tally cand + votes trx)).
Proof.
  intros H. unfold counted, inc_tally, mark_paid; simpl.
  rewrite lookup_alter_eq, H. reflexivity.
Qed.

(** C1, as stated, fails on the push path: for the paid transaction
    [cs_1], a correctly signed completion notification about [cs_1] is
    answered with the ordinary acknowledgement [{received:true}], not
    with an "already counted" result (the store is indeed unchanged). *)
Lemma webhook_reply_on_paid_transaction :
  let c := Call (POST_stripe_webhook (Some "t=1,v1=5257a8") "{}")
                (provider_ok "paid") [] in
  (paid <$> select_transaction "cs_1" db5_paid) = Some true
  /\ confirms "cs_1" c
  /\ serve cfg0 db5_paid c = (json (BReceived None), db5_paid)
  /\ (serve cfg0 db5_paid c).1 <> json BAlreadyCounted.
Proof.
  split; [reflexivity|]. split; [by intros ? ? [= <-]|].
  split; [reflexivity|]. discriminate.
Qed.

(** C1, amended: once a transaction is paid, any number of further
    confirmation calls for its (non-empty) session id leave the whole
    store unchanged; the pull path answers [{ok:true, alreadyCounted:true}]
    and the push path answers its acknowledgement or its signature
    error.  From a pending transaction, any sequence of confirmation
    calls for its session id, handled one after another, either leaves
    the store as it was or applies the unit of work exactly once: the
    tally grows by the transaction's votes once, never twice. *)
Theorem confirmation_counts_once cfg d sid trx cs rs d' :
  select_transaction sid d = Some trx ->
  sid <> "" ->
  Forall (confirms sid) cs ->
  run cfg d cs = (rs, d') ->
  (paid trx = true -> d' = d /\ Forall2 paid_reply cs rs)
  /\ (paid trx = false ->
      d' = d
      \/ (d' = counted sid trx d
          /\ (paid <$> select_transaction sid d') = Some true
          /\ forall cand,
               candidates d !! candidate_id trx = Some cand ->
               candidates d' !! candidate_id trx
               = Some (Candidate (name cand) (tally cand + votes trx)))).
Proof.
  intros Hsel Hne Hcs Hrun. split.
  - intros Hpaid. by eapply run_confirm_paid.
  - intros Hpaid.
    assert (d' = d \/ d' = counted sid trx d) as [->| ->]; [|by left|].
    { revert d rs d' Hsel Hrun.
      induction Hcs as [|c cs Hc Hcs IH]; intros d rs d' Hsel; simpl.
      - intros [= <- <-]. by left.
      - destruct (serve cfg d c) as [r d1] eqn:E1.
        destruct (run cfg d1 cs) as [rs' d2] eqn:E2.
        intros [= <- <-].
        destruct (serve_confirm_pending cfg sid trx _ _ _ _ Hsel Hpaid Hc E1)
          as [-> | ->].
        + by eapply IH.
        + right.
          eapply (run_confirm_paid cfg sid (set_paid trx)) in E2 as [-> _];
            eauto using StoreFacts.select_counted. }
    right. split; [done|]. split.
    + by rewrite (StoreFacts.select_counted _ _ _ Hsel).
    + intros cand. apply counted_tally.
Qed.

Lemma confirmation_counts_once_witness :
  let pull := Call (GET_verify_session (Some "cs_1")) (provider_ok "paid") [] in
  let push := Call (POST_stripe_webhook (Some "t=1,v1=5257a8") "{}")
                   (provider_ok "paid") [] in
  let cs := [pull; push; pull] in
  (run cfg0 db5_paid cs).2 = db5_paid
  /\ Forall2 paid_reply cs (run cfg0 db5_paid cs).1.
Proof.
  intros pull push cs.
  refine (proj1 (confirmation_counts_once cfg0 db5_paid "cs_1"
                   (set_paid trx_pending)
                   cs (run cfg0 db5_paid cs).1 (run cfg0 db5_paid cs).2
                   _ _ _ _) _).
  - reflexivity.
  - discriminate.
  - repeat constructor; intros ? ? [= <-]; reflexivity.
  - reflexivity.
  - reflexivity.
Defined.

(** C2: in both confirmer paths, when the provider reports the session
    of a pending transaction as paid, either both updates are applied
    (the session's row now has [paid] set and the candidate's tally is
    the old tally plus the row's votes, nothing else changed) or neither
    is (the store is as it was, the row still pending and the tally the
    old one), whichever statement the engine fails; with no failure both
    are applied. *)
Theorem confirm_is_atomic cfg prov faults d sid trx cand :
  select_transaction sid d = Some trx ->
  paid trx = false ->
  candidates d !! candidate_id trx = Some cand ->
  sid <> "" ->
  stripe cfg = true ->
  (sessions_retrieve prov sid = Ok "paid" ->
   exists r d',
     verify_session cfg prov faults d (Some sid) = (r, d')
     /\ ((r = json BCounted
          /\ both_applied sid trx cand d'
          /\ d' = inc_tally (votes trx) (candidate_id trx) (mark_paid sid d))
         \/ (r = Response 500 (BError "Verification failed")
             /\ none_applied sid trx cand d'
             /\ d' = d))
     /\ (faults = [] -> r = json BCounted /\ both_applied sid trx cand d'))
  /\ (forall sig raw,
        JS.truthy_opt (STRIPE_WEBHOOK_SECRET cfg) = true ->
        constructEvent prov raw sig (default "" (STRIPE_WEBHOOK_SECRET cfg))
        = Ok (Event "checkout.session.completed" sid) ->
        exists r d',
          stripe_webhook cfg prov faults d sig raw = (r, d')
          /\ ((r = json (BReceived None)
               /\ both_applied sid trx cand d'
               /\ d' = inc_tally (votes trx) (candidate_id trx) (mark_paid sid d))
              \/ ((exists e, r = Response 400 (BText ("Webhook Error: " ++ e)))
                  /\ none_applied sid trx cand d'
                  /\ d' = d))
          /\ (faults = [] ->
              r = json (BReceived None) /\ both_applied sid trx cand d')).
Proof.
  intros Hsel Hpaid Hcand Hne Hstripe.
  assert (Hboth : both_applied sid trx cand (counted sid trx d)).
  { split.
    - by rewrite (StoreFacts.select_counted _ _ _ Hsel).
    - by apply counted_tally. }
  assert (Hnone : none_applied sid trx cand d) by done.
  split.
  - intros Hret. unfold verify_session. simpl.
    rewrite (StoreFacts.truthy_nonempty _ Hne). simpl.
    rewrite Hsel, Hpaid, Hstripe, Hret. simpl.
    destruct (StoreFacts.tx_cases sid trx faults d) as [(p & E)|(e & p & E)].
    + rewrite E. eexists _, _. split; [reflexivity|]. split; [by left|done].
    + rewrite E. eexists _, _. split; [reflexivity|]. split; [by right|].
      intros ->. rewrite StoreFacts.tx_no_fault in E. discriminate E.
  - intros sig raw Hsec Hev. unfold stripe_webhook.
    rewrite Hsec, Hstripe, Hev. simpl. rewrite Hsel, Hpaid. simpl.
    destruct (StoreFacts.tx_cases sid trx faults d) as [(p & E)|(e & p & E)].
    + rewrite E. eexists _, _. split; [reflexivity|]. split; [by left|done].
    + rewrite E. eexists _, _. split; [reflexivity|].
      split; [right; eauto|].
      intros ->. rewrite StoreFacts.tx_no_fault in E. discriminate E.
Qed.

Lemma confirm_is_atomic_witness :
  (exists r d',
     verify_session cfg0 (provider_ok "paid") [] db5_pending (Some "cs_1")
     = (r, d')
     /\ ((r = json BCounted
          /\ both_applied "cs_1" trx_pending (Candidate "Yes" 5) d'
          /\ d' = inc_tally 3 1 (mark_paid "cs_1" db5_pending))
         \/ (r = Response 500 (BError "Verification failed")
             /\ none_applied "cs_1" trx_pending (Candidate "Yes" 5) d'
             /\ d' = db5_pending))
     /\ (([] : plan) = [] ->
         r = json BCounted
         /\ both_applied "cs_1" trx_pending (Candidate "Yes" 5) d'))
  /\ select_transaction "cs_1" (inc_tally 3 1 (mark_paid "cs_1" db5_pending))
     = Some (Transaction "cs_1" 1 3 "USD" 300 true)
  /\ candidates (inc_tally 3 1 (mark_paid "cs_1" db5_pending)) !! 1
     = Some (Candidate "Yes" 8).
Proof.
  split; [|split; reflexivity].
  refine (proj1 (confirm_is_atomic cfg0 (provider_ok "paid") [] db5_pending
                   "cs_1" trx_pending (Candidate "Yes" 5) _ _ _ _ _) _).
  - reflexivity.
  - reflexivity.
  - reflexivity.
  - discriminate.
  - reflexivity.
  - reflexivity.
Defined.

(** C5: for a pending transaction whose session the provider reports as
    not paid, the pull path answers [{ok:false, paid:false}] and leaves
    the whole store as it was; a later retry on that store, once the
    provider reports the session as paid, is counted. *)
Theorem unpaid_session_leaves_ledger cfg prov faults d sid trx payment_status :
  select_transaction sid d = Some trx ->
  paid trx = false ->
  sid <> "" ->
  stripe cfg = true ->
  sessions_retrieve prov sid = Ok payment_status ->
  payment_status <> "paid" ->
  verify_session cfg prov faults d (Some sid) = (json BNotPaid, d)
  /\ forall prov',
       sessions_retrieve prov' sid = Ok "paid" ->
       verify_session cfg prov' [] d (Some sid)
       = (json BCounted, counted sid trx d).
Proof.
  intros Hsel Hpaid Hne Hstripe Hret Hst. split.
  - unfold verify_session. simpl.
    rewrite (StoreFacts.truthy_nonempty _ Hne). simpl.
    rewrite Hsel, Hpaid, Hstripe, Hret. simpl.
    by rewrite bool_decide_eq_false_2.
  - intros prov' Hret'. unfold verify_session. simpl.
    rewrite (StoreFacts.truthy_nonempty _ Hne). simpl.
    rewrite Hsel, Hpaid, Hstripe, Hret'. reflexivity.
Qed.

Lemma unpaid_session_leaves_ledger_witness :
  verify_session cfg0 (provider_ok "unpaid") [] db5_pending (Some "cs_1")
  = (json BNotPaid, db5_pending)
  /\ forall prov',
       sessions_retrieve prov' "cs_1" = Ok "paid" ->
       verify_session cfg0 prov' [] db5_pending (Some "cs_1")
       = (json BCounted, counted "cs_1" trx_pending db5_pending).
Proof.
  apply (unpaid_session_leaves_ledger cfg0 (provider_ok "unpaid") []
           db5_pending "cs_1" trx_pending "unpaid").
  - reflexivity.
  - reflexivity.
  - discriminate.
  - reflexivity.
  - reflexivity.
  - discriminate.
Defined.

(** C6, as stated, fails when the server has no webhook secret: a
    request whose signature the provider's check rejects is answered
    with status 200 and [{received:true, note}], not with a client
    error. *)
Lemma unsigned_webhook_accepted_without_secret :
  constructEvent provider_down "{}" (Some "bogus") ""
  = Thrown "No signatures found matching the expected signature for payload"
  /\ stripe_webhook cfg_no_webhook provider_down [] db5_pending (Some "bogus") "{}"
     = (Response 200 (BReceived (Some "webhook not configured")), db5_pending).
Proof. split; reflexivity. Qed.

(** C6, amended: on a server where the webhook secret and the payment
    client are configured, a notification whose signature check throws
    is answered with status 400 and the store is left as it was; where
    they are not configured the notification is acknowledged, and the
    store is left as it was too. *)
Theorem bad_signature_changes_nothing cfg prov faults d sig raw e :
  constructEvent prov raw sig (default "" (STRIPE_WEBHOOK_SECRET cfg))
  = Thrown e ->
  (webhook_configured cfg ->
   stripe_webhook cfg prov faults d sig raw
   = (Response 400 (BText ("Webhook Error: " ++ e)), d))
  /\ (~ webhook_configured cfg ->
      stripe_webhook cfg prov faults d sig raw
      = (json (BReceived (Some "webhook not configured")), d)).
Proof.
  intros Hev. unfold webhook_configured, stripe_webhook. split.
  - intros [-> ->]. simpl. by rewrite Hev.
  - intros Hn.
    destruct (JS.truthy_opt _); destruct (stripe cfg); simpl; try done.
    by destruct Hn.
Qed.

Lemma bad_signature_changes_nothing_witness :
  (webhook_configured cfg0 ->
   stripe_webhook cfg0 provider_down [] db5_pending (Some "bogus") "{}"
   = (Response 400 (BText ("Webhook Error: " ++
        "No signatures found matching the expected signature for payload")),
      db5_pending))
  /\ (~ webhook_configured cfg0 ->
      stripe_webhook cfg0 provider_down [] db5_pending (Some "bogus") "{}"
      = (json (BReceived (Some "webhook not configured")), db5_pending)).
Proof.
  apply (bad_signature_changes_nothing cfg0 provider_down [] db5_pending
           (Some "bogus") "{}").
  reflexivity.
Defined.

(** C10: when the webhook secret or the payment client is missing, the
    push path answers every request with [{received:true, note}],
    whatever the provider's signature check would say, and leaves the
    store as it was. *)
Theorem unconfigured_webhook_accepts cfg prov faults d sig raw :
  JS.truthy_opt (STRIPE_WEBHOOK_SECRET cfg) = false \/ stripe cfg = false ->
  stripe_webhook cfg prov faults d sig raw
  = (json (BReceived (Some "webhook not configured")), d).
Proof.
  unfold stripe_webhook. intros [-> | ->]; simpl; [done|].
  by rewrite orb_true_r.
Qed.

Lemma unconfigured_webhook_accepts_witness :
  stripe_webhook cfg_no_webhook (provider_ok "paid") [] db5_pending None ""
  = (json (BReceived (Some "webhook not configured")), db5_pending).
Proof.
  apply (unconfigured_webhook_accepts cfg_no_webhook).
  left. reflexivity.
Defined.

(** * Checkout *)

Lemma coerce_votes_valid (v : Z) : 1 <= v -> coerce_votes (JS.Num v) = v.
Proof.
  intros H. unfold coerce_votes. simpl.
  destruct (0 <? v) eqn:E; [done|]. apply Z.ltb_ge in E. lia.
Qed.

Lemma coerce_votes_pos (x : JS.number) : 1 <= coerce_votes x.
Proof.
  destruct x as [|n|b]; simpl; [lia| |lia].
  destruct (0 <? n) eqn:E; [|lia]. apply Z.ltb_lt in E. lia.
Qed.

Lemma coerce_votes_nonpos (x : JS.number) :
  (forall n, x = JS.Num n -> n <= 0) -> coerce_votes x = 1.
Proof.
  destruct x as [|n|b]; simpl; [done| |done].
  intros H. specialize (H n eq_refl).
  destruct (0 <? n) eqn:E; [apply Z.ltb_lt in E; lia|done].
Qed.

Lemma priceMinor_valid cfg (v : Z) :
  1 <= v -> priceMinor cfg v = VOTE_PRICE_MINOR cfg * v.
Proof.
  intros H. unfold priceMinor.
  destruct (v =? 0) eqn:E; [apply Z.eqb_eq in E; lia|].
  f_equal. lia.
Qed.

(** What the insert of a pending row does to the store. *)
Lemma write_insert_cases sid cid v cur amount faults d :
  (exists p, write (insert_transaction sid cid v cur amount) (faults, d)
             = (Ok tt, (p, Db (candidates d)
                              (transactions d
                                 ++ [Transaction sid cid v cur amount false])
                              (settings d))))
  \/ (exists e p, write (insert_transaction sid cid v cur amount) (faults, d)
                  = (Thrown e, (p, d))).
Proof.
  unfold write, insert_transaction.
  destruct (next_fault faults) as [[] p]; [right; eauto|].
  destruct (select_transaction sid d); [right; eauto|].
  destruct (select_candidate cid d); [left|right]; eauto.
Qed.

Module CheckoutFacts.

Lemma select_appended sid d row :
  select_transaction sid d = None ->
  session_id row = sid ->
  select_transaction sid
    (Db (candidates d) (transactions d ++ [row]) (settings d)) = Some row.
Proof.
  unfold select_transaction; simpl. intros Hnone Hsid.
  induction (transactions d) as [|t l IH]; simpl in *.
  - by rewrite bool_decide_eq_true_2.
  - destruct (bool_decide (session_id t = sid)); [done|]. by apply IH.
Qed.

(** Everything a checkout call can do: fail and leave the store, or
    have the provider create a session for the coerced votes at their
    price, and record exactly that. *)
Lemma checkout_cases cfg prov faults d b r d' :
  create_checkout_session cfg prov faults d b = (r, d') ->
  (status r <> 200 /\ (exists e, content r = BError e) /\ d' = d)
  \/ exists ps sess cid cand,
       let v := coerce_votes (JS.parseInt (b_votes b)) in
       stripe cfg = true
       /\ b_candidateId b = Some cid
       /\ candidates d !! cid = Some cand
       /\ sessions_create prov ps = Ok sess
       /\ sp_currency ps = JS.toUpperCase (JS.or_default (b_currency b) "USD")
       /\ sp_unit_amount ps = VOTE_PRICE_MINOR cfg * v
       /\ sp_candidate_id ps = JS.string_of_Z cid
       /\ sp_votes ps = JS.string_of_Z v
       /\ select_transaction (s_id sess) d = None
       /\ r = json (BSession (s_id sess) (s_url sess))
       /\ d' = Db (candidates d)
                  (transactions d
                     ++ [Transaction (s_id sess) cid v (sp_currency ps)
                           (sp_unit_amount ps) false])
                  (settings d).
Proof.
  unfold create_checkout_session.
  destruct (stripe cfg) eqn:Hstripe; simpl;
    [|intros [= <- <-]; left; simpl; eauto].
  destruct (b_candidateId b) as [cid|] eqn:Hcid;
    [|intros [= <- <-]; left; simpl; eauto].
  destruct (select_candidate cid d) as [cand|] eqn:Hcand;
    [|intros [= <- <-]; left; simpl; eauto].
  match goal with
  | |- context [sessions_create prov ?ps0] =>
      set (ps := ps0);
      destruct (sessions_create prov ps) as [sess|e] eqn:Ecreate
  end;
    [|intros [= <- <-]; left; unfold create_failed; simpl; eauto].
  unfold write, insert_transaction.
  destruct (next_fault faults) as [[] p];
    [intros [= <- <-]; left; unfold create_failed; simpl; eauto|].
  destruct (select_transaction (s_id sess) d) eqn:Hnew;
    [intros [= <- <-]; left; unfold create_failed; simpl; eauto|].
  rewrite Hcand. intros [= <- <-]. right.
  exists ps, sess, cid, cand. cbv zeta.
  pose proof (priceMinor_valid cfg _ (coerce_votes_pos (JS.parseInt (b_votes b))))
    as Hprice.
  subst ps. simpl. rewrite Hprice in Ecreate |- *. by repeat split.
Qed.

(** With a client and an existing candidate, the call is decided by
    the provider's answer to that one request. *)
Lemma checkout_asks_provider cfg prov faults d b cid cand :
  stripe cfg = true ->
  b_candidateId b = Some cid ->
  select_candidate cid d = Some cand ->
  let ps := params_of cfg b cid cand in
  (forall e, sessions_create prov ps = Thrown e ->
             create_checkout_session cfg prov faults d b
             = (create_failed cfg e, d))
  /\ (forall sess,
        sessions_create prov ps = Ok sess ->
        select_transaction (s_id sess) d = None ->
        faults = [] ->
        create_checkout_session cfg prov faults d b
        = (json (BSession (s_id sess) (s_url sess)),
           Db (candidates d)
              (transactions d
                 ++ [Transaction (s_id sess) cid
                       (coerce_votes (JS.parseInt (b_votes b)))
                       (sp_currency ps) (sp_unit_amount ps) false])
              (settings d))).
Proof.
  intros Hstripe Hcid Hcand ps. subst ps.
  unfold create_checkout_session, params_of.
  rewrite Hstripe, Hcid, Hcand. simpl. split.
  - by intros e ->.
  - intros sess -> Hnew ->. unfold write, insert_transaction. simpl.
    by rewrite Hnew, Hcand.
Qed.

Lemma verify_counts cfg prov d sid trx :
  select_transaction sid d = Some trx -> paid trx = false -> sid <> "" ->
  stripe cfg = true -> sessions_retrieve prov sid = Ok "paid" ->
  verify_session cfg prov [] d (Some sid) = (json BCounted, counted sid trx d).
Proof.
  intros Hsel Hpaid Hne Hstripe Hret. unfold verify_session. simpl.
  rewrite (StoreFacts.truthy_nonempty _ Hne). simpl.
  rewrite Hsel, Hpaid, Hstripe, Hret. reflexivity.
Qed.

End CheckoutFacts.

(** C3, as stated, fails for vote counts that are not safe integers.
    A request for 10^21 votes is read through the Number's String
    [1e+21] and recorded as one vote at the price of one; a request for
    2^53 + 1 votes is recorded with 2^53 votes. *)
Lemma huge_vote_count_is_not_recorded :
  create_checkout_session cfg0 (provider_ok "unpaid") [] db5
    (CheckoutBody (Some 1) (JS.JNum (10 ^ 21)) (Some "usd") None None)
  = (json (BSession "cs_1" "https://checkout.stripe.com/c/pay/cs_1"),
     Db (candidates db5) [Transaction "cs_1" 1 1 "USD" 100 false]
        (settings db5))
  /\ 100 <> VOTE_PRICE_MINOR cfg0 * 10 ^ 21
  /\ create_checkout_session cfg0 (provider_ok "unpaid") [] db5
       (CheckoutBody (Some 1) (JS.JNum (2 ^ 53 + 1)) (Some "usd") None None)
     = (json (BSession "cs_1" "https://checkout.stripe.com/c/pay/cs_1"),
        Db (candidates db5)
           [Transaction "cs_1" 1 (2 ^ 53) "USD" (100 * 2 ^ 53) false]
           (settings db5)).
Proof. split; [|split]; vm_compute; (reflexivity || discriminate). Qed.

(** C3, amended: for an existing candidate, a vote count [v] that is a
    safe integer, [1 <= v < 2^53], with a price, the price per vote
    times [v], that is a safe integer too, and a currency code of ASCII
    characters, a checkout call that succeeds (status 200) has appended
    exactly one row to [transactions], with [amount_total] the price per
    vote times [v] and [paid] false, and changed nothing else; a call
    that does not succeed, in particular one whose session creation the
    provider fails, leaves the store as it was; and with a configured
    client, a provider that creates a session with a new id and an engine
    that does not fail, the call does succeed. *)
Theorem checkout_persists_one_row cfg prov faults d cid cand v cur su cu r d' :
  select_candidate cid d = Some cand ->
  1 <= v < 2 ^ 53 ->
  Z.abs (VOTE_PRICE_MINOR cfg * v) < 2 ^ 53 ->
  JS.ascii_only (JS.or_default cur "USD") = true ->
  create_checkout_session cfg prov faults d
    (CheckoutBody (Some cid) (JS.JNum v) cur su cu) = (r, d') ->
  (status r = 200 ->
   exists sess,
     r = json (BSession (s_id sess) (s_url sess))
     /\ d' = Db (candidates d)
                (transactions d
                   ++ [Transaction (s_id sess) cid v
                         (JS.toUpperCase (JS.or_default cur "USD"))
                         (VOTE_PRICE_MINOR cfg * v) false])
                (settings d))
  /\ (status r <> 200 -> d' = d)
  /\ ((forall ps, exists e, sessions_create prov ps = Thrown e) ->
      status r <> 200 /\ d' = d)
  /\ (forall sess,
        stripe cfg = true ->
        (forall ps, sessions_create prov ps = Ok sess) ->
        select_transaction (s_id sess) d = None ->
        faults = [] ->
        status r = 200).
Proof.
  intros Hcand Hv _ _ Hcall.
  assert (Hvotes : coerce_votes (JS.parseInt (JS.JNum v)) = v).
  { rewrite JSFacts.parseInt_JNum by lia. apply coerce_votes_valid. lia. }
  destruct (CheckoutFacts.checkout_cases _ _ _ _ _ _ _ Hcall)
    as [(Hr & _ & ->)
       |(ps & sess & cid' & cand' & _ & Hcid & _ & Hcreate & Hcur & Hamt
           & _ & _ & _ & -> & ->)];
    simpl in *.
  - split; [done|]. split; [done|]. split; [done|].
    intros sess Hstripe Hok Hnew ->.
    destruct (CheckoutFacts.checkout_asks_provider cfg prov [] d
                (CheckoutBody (Some cid) (JS.JNum v) cur su cu) cid cand
                Hstripe eq_refl Hcand) as [_ H].
    rewrite (H sess (Hok _) Hnew eq_refl) in Hcall.
    injection Hcall as <- _. by destruct Hr.
  - injection Hcid as <-. rewrite Hvotes in *. rewrite Hcur, Hamt.
    split; [intros _; by exists sess|]. split; [done|]. split; [|done].
    intros Hdown. destruct (Hdown ps) as [e He]. by rewrite He in Hcreate.
Qed.

Lemma checkout_persists_one_row_witness :
  status (json (BSession "cs_1" "https://checkout.stripe.com/c/pay/cs_1")) = 200
  /\ exists sess,
       json (BSession "cs_1" "https://checkout.stripe.com/c/pay/cs_1")
       = json (BSession (s_id sess) (s_url sess))
       /\ db5_pending
          = Db (candidates db5)
               (transactions db5
                  ++ [Transaction (s_id sess) 1 3
                        (JS.toUpperCase (JS.or_default (Some "usd") "USD"))
                        (VOTE_PRICE_MINOR cfg0 * 3) false])
               (settings db5).
Proof.
  split; [reflexivity|].
  refine (proj1 (checkout_persists_one_row cfg0 (provider_ok "unpaid") [] db5
                   1 (Candidate "Yes" 5) 3 (Some "usd") None None
                   (json (BSession "cs_1" "https://checkout.stripe.com/c/pay/cs_1"))
                   db5_pending _ _ _ _ _) _).
  - reflexivity.
  - lia.
  - vm_compute. reflexivity.
  - reflexivity.
  - vm_compute. reflexivity.
  - reflexivity.
Defined.

(** C4, as stated, fails on the server: the endpoint has no list of
    currencies.  A request for Thai baht, which the page does not offer,
    reaches the provider, and when the provider creates the session the
    row is persisted. *)
Lemma unlisted_currency_reaches_provider :
  isValidCurrency "thb" currencies = false
  /\ create_checkout_session cfg0 (provider_ok "unpaid") [] db5
       (body3 (Some "thb"))
     = (Response 200 (BSession "cs_1" "https://checkout.stripe.com/c/pay/cs_1"),
        Db (candidates db5) [Transaction "cs_1" 1 3 "THB" 300 false]
           (settings db5)).
Proof. split; vm_compute; reflexivity. Qed.

(** C4, amended: it is the page that checks the currency.  Once a
    choice is made, [createCheckout] with a currency code of ASCII
    characters outside the offered list shows "Unsupported currency."
    and sends nothing, so the store is as it was and no session is asked
    for.  The endpoint itself checks no currency: given a client and an
    existing candidate, it asks the provider for a session in the
    upper-cased code it received (USD by default), whatever the code;
    when the provider refuses, it answers with the failure and persists
    no row; when the provider creates the session, it persists the row
    in that currency. *)
Theorem unsupported_currency_stops_at_page cfg prov faults d pg :
  no_choice (choiceId pg) = false ->
  JS.ascii_only (pg_currency pg) = true ->
  isValidCurrency (pg_currency pg) currencies = false ->
  checkout_request pg = inl "Unsupported currency."
  /\ createCheckout cfg prov faults d pg = (Message "Unsupported currency.", d)
  /\ (forall b cid cand,
        stripe cfg = true ->
        b_candidateId b = Some cid ->
        select_candidate cid d = Some cand ->
        JS.ascii_only (JS.or_default (b_currency b) "USD") = true ->
        exists ps,
          sp_currency ps = JS.toUpperCase (JS.or_default (b_currency b) "USD")
          /\ (forall e,
                sessions_create prov ps = Thrown e ->
                create_checkout_session cfg prov faults d b
                = (create_failed cfg e, d))
          /\ (forall sess,
                sessions_create prov ps = Ok sess ->
                select_transaction (s_id sess) d = None ->
                faults = [] ->
                exists row,
                  create_checkout_session cfg prov faults d b
                  = (json (BSession (s_id sess) (s_url sess)),
                     Db (candidates d) (transactions d ++ [row]) (settings d))
                  /\ currency row = sp_currency ps
                  /\ session_id row = s_id sess))
  /\ (forall b,
        (forall ps, exists e, sessions_create prov ps = Thrown e) ->
        (create_checkout_session cfg prov faults d b).2 = d).
Proof.
  intros Hc _ Hcur.
  assert (checkout_request pg = inl "Unsupported currency.") as E.
  { unfold checkout_request. by rewrite Hc, Hcur. }
  split; [done|]. split; [|split].
  - unfold createCheckout. by rewrite E.
  - intros b cid cand Hstripe Hcid Hcand _.
    destruct (CheckoutFacts.checkout_asks_provider cfg prov faults d b cid cand
                Hstripe Hcid Hcand) as [Hno Hyes].
    eexists. split; [|split; [exact Hno|]].
    + reflexivity.
    + intros sess Hok Hnew Hf. eexists. split; [by apply Hyes|]. done.
  - intros b Hdown. unfold create_checkout_session.
    destruct (stripe cfg); simpl; [|done].
    destruct (b_candidateId b) as [cid|]; [|done].
    destruct (select_candidate cid d); [|done].
    match goal with
    | |- context [sessions_create prov ?ps] =>
        destruct (Hdown ps) as [e ->]
    end.
    done.
Qed.

Lemma unsupported_currency_stops_at_page_witness :
  checkout_request (Page (Some 1) 3 "thb" "http://localhost:5173")
  = inl "Unsupported currency."
  /\ createCheckout cfg0 (provider_ok "unpaid") [] db5
       (Page (Some 1) 3 "thb" "http://localhost:5173")
     = (Message "Unsupported currency.", db5)
  /\ (forall b cid cand,
        stripe cfg0 = true ->
        b_candidateId b = Some cid ->
        select_candidate cid db5 = Some cand ->
        JS.ascii_only (JS.or_default (b_currency b) "USD") = true ->
        exists ps,
          sp_currency ps = JS.toUpperCase (JS.or_default (b_currency b) "USD")
          /\ (forall e,
                sessions_create (provider_ok "unpaid") ps = Thrown e ->
                create_checkout_session cfg0 (provider_ok "unpaid") [] db5 b
                = (create_failed cfg0 e, db5))
          /\ (forall sess,
                sessions_create (provider_ok "unpaid") ps = Ok sess ->
                select_transaction (s_id sess) db5 = None ->
                ([] : plan) = [] ->
                exists row,
                  create_checkout_session cfg0 (provider_ok "unpaid") [] db5 b
                  = (json (BSession (s_id sess) (s_url sess)),
                     Db (candidates db5) (transactions db5 ++ [row])
                        (settings db5))
                  /\ currency row = sp_currency ps
                  /\ session_id row = s_id sess))
  /\ (forall b,
        (forall ps, exists e,
            sessions_create (provider_ok "unpaid") ps = Thrown e) ->
        (create_checkout_session cfg0 (provider_ok "unpaid") [] db5 b).2 = db5).
Proof.
  apply (unsupported_currency_stops_at_page cfg0 (provider_ok "unpaid") [] db5
           (Page (Some 1) 3 "thb" "http://localhost:5173")).
  - reflexivity.
  - reflexivity.
  - vm_compute. reflexivity.
Defined.




(** * Settings *)

Lemma bearer_header cfg authorization :
  JS.or_default authorization "" = "Bearer " ++ ADMIN_TOKEN cfg ->
  authorization = Some ("Bearer " ++ ADMIN_TOKEN cfg).
Proof.
  destruct authorization as [a|]; simpl; [|discriminate].
  destruct a; simpl; [discriminate|]. by intros ->.
Qed.

(** C8: a settings write that carries the right credential leaves the
    candidates and the transactions alone and keeps every settings field
    that the request does not supply; when the engine accepts the
    statement, the fields the request supplies take the supplied values.
    A write without the right credential is answered with status 401 and
    changes nothing. *)
Theorem settings_write_keeps_other_fields cfg faults d authorization q g r d' :
  admin_settings cfg faults d authorization q g = (r, d') ->
  (authorized cfg authorization ->
   candidates d' = candidates d
   /\ transactions d' = transactions d
   /\ (q = None -> question (settings d') = question (settings d))
   /\ (g = None -> glow (settings d') = glow (settings d))
   /\ (faults = [] ->
       r = json BOk
       /\ (forall s, q = Some s -> question (settings d') = Some s)
       /\ (forall s, g = Some s -> glow (settings d') = Some s)))
  /\ (~ authorized cfg authorization ->
      r = Response 401 (BError "Unauthorized") /\ d' = d).
Proof.
  unfold admin_settings, authorized.
  destruct (JS.truthy (ADMIN_TOKEN cfg)) eqn:Htok; simpl.
  2:{ intros [= <- <-]. split; [|done].
      intros [Hne _]. by destruct (ADMIN_TOKEN cfg). }
  case_bool_decide as Hauth; simpl.
  2:{ intros [= <- <-]. split; [|done].
      intros [_ ->]. destruct Hauth. reflexivity. }
  apply bearer_header in Hauth.
  unfold write. destruct (next_fault faults) as [[] p] eqn:Ef;
    intros [= <- <-]; simpl.
  - split; [|intros Hn; destruct Hn; split; [by destruct (ADMIN_TOKEN cfg)|done]].
    intros _. do 4 (split; [done|]). intros ->. discriminate Ef.
  - split; [|intros Hn; destruct Hn; split; [by destruct (ADMIN_TOKEN cfg)|done]].
    intros _. do 2 (split; [done|]).
    split; [by intros ->|]. split; [by intros ->|].
    intros _. split; [done|]. split; by intros s ->.
Qed.

Lemma settings_write_keeps_other_fields_witness :
  candidates (update_settings (Some "Is it NO?") None db5) = candidates db5
  /\ transactions (update_settings (Some "Is it NO?") None db5) = transactions db5
  /\ ((Some "Is it NO?" : option string) = None ->
      question (settings (update_settings (Some "Is it NO?") None db5))
      = question (settings db5))
  /\ ((None : option string) = None ->
      glow (settings (update_settings (Some "Is it NO?") None db5))
      = glow (settings db5))
  /\ (([] : plan) = [] ->
      json BOk = json BOk
      /\ (forall s, Some "Is it NO?" = Some s ->
                    question (settings (update_settings (Some "Is it NO?") None db5))
                    = Some s)
      /\ (forall s, (None : option string) = Some s ->
                    glow (settings (update_settings (Some "Is it NO?") None db5))
                    = Some s)).
Proof.
  refine (proj1 (settings_write_keeps_other_fields cfg0 [] db5
                   (Some "Bearer s3cret") (Some "Is it NO?") None
                   (json BOk) (update_settings (Some "Is it NO?") None db5)
                   _) _).
  - reflexivity.
  - split; [discriminate|reflexivity].
Defined.

(** * The ledger invariant *)

Module LedgerFacts.

Lemma insert_candidate_zero n d d' :
  zero_tallies d -> insert_candidate n d = Ok d' -> zero_tallies d'.
Proof.
  intros [Hc Ht]. unfold insert_candidate.
  destruct (name_taken n (candidates d)); [discriminate|].
  intros [= <-]. split; simpl; [|done].
  intros id c. rewrite lookup_insert. case_decide.
  - by intros [= <-].
  - apply Hc.
Qed.

Lemma seed_all_zero names : forall p d r p' d',
  zero_tallies d -> seed_all names (p, d) = (r, (p', d')) ->
  zero_tallies d'.
Proof.
  induction names as [|n names IH]; intros p d r p' d' Hz; simpl.
  - by intros [= <- <- <-].
  - unfold sql_bind, write.
    destruct (next_fault p) as [[] p1]; [by intros [= <- <- <-]|].
    destruct (insert_candidate n d) as [d1|e] eqn:E;
      [|by intros [= <- <- <-]].
    apply IH. by eapply insert_candidate_zero.
Qed.

Lemma seed_zero names d0 :
  seed names empty_db = Ok d0 -> zero_tallies d0.
Proof.
  unfold seed. rewrite bool_decide_eq_true_2 by done.
  destruct (db_transaction _ _) as [[[]|e] [p d1]] eqn:E; [|discriminate].
  intros [= <-].
  apply StoreFacts.db_transaction_cases in E as [-> | (a & p1 & p2 & E)];
    [by split|].
  eapply seed_all_zero; [|exact E]. by split.
Qed.

Lemma tx_effect sid trx faults d o p d' :
  select_transaction sid d = Some trx ->
  tx sid trx (faults, d) = (o, (p, d')) -> effect d d'.
Proof.
  intros Hsel.
  destruct (StoreFacts.tx_cases sid trx faults d) as [(p0 & ->)|(e & p0 & ->)];
    intros [= <- <- <-]; by constructor.
Qed.

Lemma verify_effect cfg prov faults d q r d' :
  verify_session cfg prov faults d q = (r, d') -> effect d d'.
Proof.
  unfold verify_session.
  destruct (negb _); [intros [= <- <-]; constructor|].
  destruct (select_transaction _ d) as [trx|] eqn:Hsel;
    [|intros [= <- <-]; constructor].
  destruct (paid trx); [intros [= <- <-]; constructor|].
  destruct (negb _); [intros [= <- <-]; constructor|].
  destruct (sessions_retrieve _ _); [|intros [= <- <-]; constructor].
  case_bool_decide; [|intros [= <- <-]; constructor].
  destruct (tx _ _ _) as [o [p d1]] eqn:E.
  apply (tx_effect _ _ _ _ _ _ _ Hsel) in E.
  destruct o; by intros [= <- <-].
Qed.

Lemma webhook_effect cfg prov faults d sig raw r d' :
  stripe_webhook cfg prov faults d sig raw = (r, d') -> effect d d'.
Proof.
  unfold stripe_webhook.
  destruct (_ || _); [intros [= <- <-]; constructor|].
  destruct (constructEvent _ _ _ _) as [ev|e];
    [|intros [= <- <-]; constructor].
  case_bool_decide; [|intros [= <- <-]; constructor].
  cbv zeta.
  destruct (select_transaction _ d) as [trx|] eqn:Hsel;
    [|intros [= <- <-]; constructor].
  destruct (negb _); [|intros [= <- <-]; constructor].
  destruct (tx _ _ _) as [o [p d1]] eqn:E.
  apply (tx_effect _ _ _ _ _ _ _ Hsel) in E.
  destruct o; by intros [= <- <-].
Qed.

Lemma checkout_effect cfg prov faults d b r d' :
  create_checkout_session cfg prov faults d b = (r, d') ->
  d' = d
  \/ exists row, 1 <= votes row
       /\ d' = Db (candidates d) (transactions d ++ [row]) (settings d).
Proof.
  unfold create_checkout_session.
  destruct (negb _); [intros [= <- <-]; by left|].
  destruct (b_candidateId b) as [cid|]; [|intros [= <- <-]; by left].
  destruct (select_candidate cid d); [|intros [= <- <-]; by left].
  destruct (sessions_create _ _) as [sess|e]; [|intros [= <- <-]; by left].
  match goal with
  | |- context [write (insert_transaction ?a ?b ?c ?e ?f) _] =>
      destruct (write_insert_cases a b c e f faults d)
        as [(p & ->)|(e' & p & ->)]
  end; intros [= <- <-]; [right|by left].
  eexists. split; [|reflexivity]. simpl. apply coerce_votes_pos.
Qed.

Lemma settings_effect cfg faults d a q g r d' :
  admin_settings cfg faults d a q g = (r, d') ->
  d' = d \/ d' = update_settings q g d.
Proof.
  unfold admin_settings.
  destruct (_ || _); [intros [= <- <-]; by left|].
  unfold write. destruct (next_fault faults) as [[] p];
    intros [= <- <-]; auto.
Qed.

Lemma serve_effect cfg d c r d' :
  serve cfg d c = (r, d') -> effect d d'.
Proof.
  destruct c as [req prov faults]. unfold serve; simpl.
  destruct req; simpl.
  1-3: intros [= <- <-]; constructor.
  - intros H. apply settings_effect in H as [-> | ->]; constructor.
  - intros H. apply checkout_effect in H as [-> | (row & Hrow & ->)];
      by constructor.
  - apply verify_effect.
  - apply webhook_effect.
Qed.

Lemma serve_keeps_candidates cfg d c r d' :
  is_confirmer (c_request c) = false ->
  serve cfg d c = (r, d') -> candidates d' = candidates d.
Proof.
  destruct c as [req prov faults]. unfold serve; simpl.
  destruct req; simpl; try discriminate; intros _.
  1-3: by intros [= <- <-].
  - intros H. by apply settings_effect in H as [-> | ->].
  - intros H. by apply checkout_effect in H as [-> | (row & Hrow & ->)].
Qed.

Lemma effect_ledger_ok d d' : effect d d' -> ledger_ok d -> ledger_ok d'.
Proof.
  intros [|q g|row Hrow|sid trx Hsel] [Hc Ht]; try done.
  - split; simpl; [done|]. apply Forall_app. split; [done|]. by constructor.
  - assert (1 <= votes trx) as Hv.
    { apply StoreFacts.select_transaction_In in Hsel.
      rewrite Forall_forall in Ht. apply Ht. by apply list_elem_of_In. }
    split; simpl.
    + intros id c. rewrite lookup_alter. case_decide.
      * subst id.
        destruct (candidates d !! candidate_id trx) as [c0|] eqn:E;
          simpl; [|done].
        intros [= <-]. simpl. specialize (Hc _ _ E). lia.
      * apply Hc.
    + clear Hsel Hv. induction Ht as [|t l Ht Hl IH]; simpl; [done|].
      constructor; [|done]. by case_bool_decide.
Qed.

(** A request changes a tally by nothing or by the positive vote
    count of a recorded transaction. *)
Lemma effect_tally d d' id c :
  effect d d' -> ledger_ok d -> candidates d !! id = Some c ->
  exists c', candidates d' !! id = Some c' /\ name c' = name c
             /\ (tally c' = tally c
                 \/ exists v, 1 <= v /\ tally c' = tally c + v).
Proof.
  intros [|q g|row Hrow|sid trx Hsel] [Hc Ht] E; simpl; eauto.
  assert (1 <= votes trx) as Hv.
  { apply StoreFacts.select_transaction_In in Hsel.
    rewrite Forall_forall in Ht. apply Ht. by apply list_elem_of_In. }
  rewrite lookup_alter. case_decide; [subst id|]; rewrite E; simpl;
    eauto 10.
Qed.

Lemma effect_tally_le d d' : effect d d' -> ledger_ok d -> tally_le d d'.
Proof.
  intros He Hok id c E.
  destruct (effect_tally _ _ _ _ He Hok E) as (c' & E' & Hn & [Ht|(v & Hv & Ht)]);
    exists c'; repeat split; try done; lia.
Qed.

Lemma tally_le_trans d1 d2 d3 :
  tally_le d1 d2 -> tally_le d2 d3 -> tally_le d1 d3.
Proof.
  intros H12 H23 id c E.
  destruct (H12 _ _ E) as (c2 & E2 & Hn2 & Ht2).
  destruct (H23 _ _ E2) as (c3 & E3 & Hn3 & Ht3).
  exists c3. repeat split; try done; [congruence|lia].
Qed.

Lemma run_ledger cfg cs : forall d rs d',
  ledger_ok d -> run cfg d cs = (rs, d') ->
  ledger_ok d' /\ tally_le d d'.
Proof.
  induction cs as [|c cs IH]; intros d rs d' Hok; simpl.
  - intros [= <- <-]. split; [done|]. intros id c E.
    exists c. split; [done|]. split; [done|lia].
  - destruct (serve cfg d c) as [r d1] eqn:E1.
    destruct (run cfg d1 cs) as [rs' d2] eqn:E2.
    intros [= <- <-]. apply serve_effect in E1.
    destruct (IH _ _ _ (effect_ledger_ok _ _ E1 Hok) E2) as [Hok2 Hle].
    split; [done|].
    eapply tally_le_trans; [by apply effect_tally_le|done].
Qed.

End LedgerFacts.

(** C9: after the seed every tally is 0; in every store the server can
    reach from there every tally is a natural number, no smaller than it
    was; and one more request, whichever it is, changes a tally by
    nothing or by adding a positive vote count, and changes no tally at
    all unless it is a confirmation request. *)
Theorem tallies_never_decrease cfg names d0 cs rs d :
  seed names empty_db = Ok d0 ->
  run cfg d0 cs = (rs, d) ->
  (forall id c, candidates d0 !! id = Some c -> tally c = 0)
  /\ (forall id c, candidates d !! id = Some c -> 0 <= tally c)
  /\ tally_le d0 d
  /\ forall c r d',
       serve cfg d c = (r, d') ->
       tally_le d d'
       /\ (is_confirmer (c_request c) = false -> candidates d' = candidates d)
       /\ forall id c0,
            candidates d !! id = Some c0 ->
            exists c1, candidates d' !! id = Some c1
                       /\ (tally c1 = tally c0
                           \/ exists v, 1 <= v /\ tally c1 = tally c0 + v).
Proof.
  intros Hseed Hrun.
  destruct (LedgerFacts.seed_zero _ _ Hseed) as [Hzero Hnil].
  assert (ledger_ok d0) as Hok0.
  { split; [|by rewrite Hnil]. intros id c E. rewrite (Hzero _ _ E). lia. }
  destruct (LedgerFacts.run_ledger _ _ _ _ _ Hok0 Hrun) as [Hok Hle].
  split; [done|]. split; [apply Hok|]. split; [done|].
  intros c r d' Hserve.
  pose proof (LedgerFacts.serve_effect _ _ _ _ _ Hserve) as He.
  split; [by apply LedgerFacts.effect_tally_le|].
  split; [intros Hc; by eapply LedgerFacts.serve_keeps_candidates|].
  intros id c0 E.
  destruct (LedgerFacts.effect_tally _ _ _ _ He Hok E) as (c1 & E1 & _ & Ht).
  eauto.
Qed.

Lemma tallies_never_decrease_witness :
  tally_le db_seeded (run cfg0 db_seeded session_calls).2.
Proof.
  refine (proj1 (proj2 (proj2
    (tallies_never_decrease cfg0 ["Yes"; "No"] db_seeded session_calls
       (run cfg0 db_seeded session_calls).1
       (run cfg0 db_seeded session_calls).2 _ _)))).
  - vm_compute. reflexivity.
  - reflexivity.
Defined.

(** * The specification's example, run on the model *)

Example example_checkout :
  create_checkout_session cfg0 (provider_ok "unpaid") [] db5 (body3 (Some "usd"))
  = (json (BSession "cs_1" "https://checkout.stripe.com/c/pay/cs_1"), db5_pending).
Proof. vm_compute. reflexivity. Qed.

Example example_confirm :
  verify_session cfg0 (provider_ok "paid") [] db5_pending (Some "cs_1")
  = (json BCounted, db5_paid)
  /\ candidates db5_paid !! 1 = Some (Candidate "Yes" 8)
  /\ (paid <$> select_transaction "cs_1" db5_paid) = Some true.
Proof. vm_compute. repeat split; reflexivity. Qed.

Example example_confirm_again :
  verify_session cfg0 (provider_ok "paid") [] db5_paid (Some "cs_1")
  = (json BAlreadyCounted, db5_paid).
Proof. vm_compute. reflexivity. Qed.

Example example_session :
  (run cfg0 db_seeded session_calls).2
  = Db (<[2 := Candidate "No" 0]> (<[1 := Candidate "Yes" 2]> ∅))
       [Transaction "cs_1" 1 2 "USD" 200 true]
       (Settings (Some "Is this week's answer YES?") (Some "#ff00ff")).
Proof. vm_compute. reflexivity. Qed.

Example example_votes_coercion :
  coerce_votes (JS.parseInt (JS.JStr "  +12abc")) = 12
  /\ coerce_votes (JS.parseInt (JS.JStr "-3")) = 1
  /\ coerce_votes (JS.parseInt (JS.JNum 0)) = 1
  /\ coerce_votes (JS.parseInt JS.JUndefined) = 1
  /\ coerce_votes (JS.parseInt (JS.JNum 7)) = 7.
Proof. repeat split; reflexivity. Qed.

(** Numbers and their Strings: the exponent from 1e21 on, the shortest
    numeral above 2^53, rounding to the nearest double, white space of
    more than one byte (here U+00A0 before the 7), and infinity. *)
Example example_number_strings :
  JS.string_of_Z (10 ^ 21) = "1e+21"
  /\ JS.string_of_Z (2 ^ 60) = "1152921504606847000"
  /\ JS.string_of_Z (- 2 ^ 70) = "-1.1805916207174113e+21"
  /\ JS.parseInt (JS.JStr "9007199254740993") = JS.Num 9007199254740992
  /\ JS.parseInt (JS.JStr (String "194" (String "160" "7"))) = JS.Num 7
  /\ JS.parseInt (JS.JNum (10 ^ 21)) = JS.Num 1
  /\ coerce_votes (JS.parseInt (JS.JNum (10 ^ 400))) = 1.
Proof. repeat split; vm_compute; reflexivity. Qed.

(** * The ledger over any sequence of requests *)

Module SoundFacts.

Lemma paid_votes_app id l1 l2 :
  paid_votes id (l1 ++ l2) = paid_votes id l1 + paid_votes id l2.
Proof. induction l1 as [|t l1 IH]; simpl; [done|]. rewrite IH. lia. Qed.

Lemma find_None_sid sid (l : list transaction) :
  List.find (fun t => bool_decide (session_id t = sid)) l = None ->
  sid ∉ session_id <$> l.
Proof.
  induction l as [|t l IH]; simpl; [intros _; apply not_elem_of_nil|].
  case_bool_decide as E; [done|]. intros H.
  apply not_elem_of_cons. split; [done|by apply IH].
Qed.

Lemma mark_row_sid sid t : session_id (mark_row sid t) = session_id t.
Proof. unfold mark_row. by case_bool_decide. Qed.

Lemma mark_rows_sids sid (l : list transaction) :
  session_id <$> List.map (mark_row sid) l = session_id <$> l.
Proof.
  induction l as [|t l IH]; simpl; [done|].
  f_equal; [apply mark_row_sid|apply IH].
Qed.

Lemma mark_rows_absent sid (l : list transaction) :
  sid ∉ session_id <$> l -> List.map (mark_row sid) l = l.
Proof.
  induction l as [|t l IH]; simpl; [done|].
  intros H. apply not_elem_of_cons in H as [Hne Hl].
  rewrite (IH Hl). unfold mark_row. by rewrite bool_decide_eq_false_2.
Qed.

(** Marking the session of a pending transaction adds its votes to the
    paid votes of its candidate, and to no other candidate's. *)
Lemma paid_votes_mark id sid trx (l : list transaction) :
  NoDup (session_id <$> l) ->
  List.find (fun t => bool_decide (session_id t = sid)) l = Some trx ->
  paid trx = false ->
  paid_votes id (List.map (mark_row sid) l)
  = paid_votes id l
    + (if bool_decide (candidate_id trx = id) then votes trx else 0).
Proof.
  induction l as [|t l IH]; [done|].
  intros Hnd Hfind Hpaid.
  change (session_id <$> t :: l) with (session_id t :: (session_id <$> l)) in Hnd.
  apply NoDup_cons in Hnd as [Hnotin Hnd].
  change (List.map (mark_row sid) (t :: l))
    with (mark_row sid t :: List.map (mark_row sid) l).
  cbn [List.find] in Hfind. cbn [paid_votes].
  destruct (bool_decide (session_id t = sid)) eqn:E.
  - assert (mark_row sid t = set_paid t) as ->
      by (unfold mark_row; by rewrite E).
    injection Hfind as ->. apply bool_decide_eq_true in E. subst sid.
    rewrite (mark_rows_absent _ _ Hnotin).
    simpl. rewrite Hpaid. simpl. case_bool_decide; lia.
  - assert (mark_row sid t = t) as -> by (unfold mark_row; by rewrite E).
    rewrite (IH Hnd Hfind Hpaid). lia.
Qed.

Lemma row_ok_candidates cfg d d' t :
  (forall id, is_Some (candidates d !! id) -> is_Some (candidates d' !! id)) ->
  row_ok cfg d t -> row_ok cfg d' t.
Proof. intros H (Hc & Hv & Ha). split; [by apply H|done]. Qed.

Lemma step_sound cfg d d' :
  step_effect cfg d d' -> ledger_sound cfg d -> ledger_sound cfg d'.
Proof.
  intros [|q g|sid cid v cur Hnew Hcand Hv|sid trx Hsel Hpaid] [Hu Hr Ht];
    [done|by split| |].
  - split; simpl.
    + rewrite fmap_app. simpl. apply NoDup_app. split; [done|].
      split; [|apply NoDup_singleton].
      intros s Hs Hs'. apply list_elem_of_singleton in Hs'. subst s.
      by apply (find_None_sid _ _ Hnew).
    + apply Forall_app. split.
      * eapply Forall_impl; [exact Hr|]. intros t. by apply row_ok_candidates.
      * constructor; [|constructor]. by split.
    + intros id c E. rewrite paid_votes_app. simpl.
      rewrite (Ht _ _ E). lia.
  - assert (forall id, is_Some (candidates d !! id) ->
                       is_Some (alter (add_tally (votes trx)) (candidate_id trx)
                                  (candidates d) !! id)) as Hdom.
    { intros id [c E]. rewrite lookup_alter. case_decide; [subst id|];
        rewrite E; eauto. }
    split; simpl.
    + change (NoDup (session_id <$> List.map (mark_row sid) (transactions d))).
      by rewrite mark_rows_sids.
    + change (Forall (row_ok cfg (counted sid trx d))
                (List.map (mark_row sid) (transactions d))).
      clear Hu Hsel Ht. induction Hr as [|t l Ht Hl IH]; simpl; [done|].
      constructor; [|done].
      assert (row_ok cfg (counted sid trx d) t) as Hok.
      { by apply (row_ok_candidates cfg d). }
      unfold mark_row. by case_bool_decide.
    + intros id c. rewrite lookup_alter.
      change (List.map _ (transactions d))
        with (List.map (mark_row sid) (transactions d)).
      rewrite (paid_votes_mark id sid trx _ Hu Hsel Hpaid).
      case_decide as E.
      * subst id. destruct (candidates d !! candidate_id trx) as [c0|] eqn:Ec;
          simpl; [|done].
        intros [= <-]. simpl. rewrite (Ht _ _ Ec).
        by rewrite bool_decide_eq_true_2.
      * intros Ec. rewrite (Ht _ _ Ec).
        rewrite bool_decide_eq_false_2 by done. lia.
Qed.

Lemma checkout_step cfg prov faults d b r d' :
  create_checkout_session cfg prov faults d b = (r, d') ->
  step_effect cfg d d'.
Proof.
  unfold create_checkout_session.
  destruct (negb _); [intros [= <- <-]; constructor|].
  destruct (b_candidateId b) as [cid|]; [|intros [= <- <-]; constructor].
  destruct (select_candidate cid d) as [cand|] eqn:Hcand;
    [|intros [= <- <-]; constructor].
  destruct (sessions_create _ _) as [sess|e]; [|intros [= <- <-]; constructor].
  unfold write, insert_transaction.
  destruct (next_fault faults) as [[] p]; [intros [= <- <-]; constructor|].
  destruct (select_transaction (s_id sess) d) eqn:Hnew;
    [intros [= <- <-]; constructor|].
  rewrite Hcand. intros [= <- <-].
  rewrite (priceMinor_valid _ _ (coerce_votes_pos _)).
  apply se_pending; [done|by eexists|apply coerce_votes_pos].
Qed.

Lemma tx_step cfg sid trx faults d o p d' :
  select_transaction sid d = Some trx -> paid trx = false ->
  tx sid trx (faults, d) = (o, (p, d')) -> step_effect cfg d d'.
Proof.
  intros Hsel Hpaid.
  destruct (StoreFacts.tx_cases sid trx faults d) as [(p0 & ->)|(e & p0 & ->)];
    intros [= <- <- <-]; by constructor.
Qed.

Lemma verify_step cfg prov faults d q r d' :
  verify_session cfg prov faults d q = (r, d') -> step_effect cfg d d'.
Proof.
  unfold verify_session.
  destruct (negb _); [intros [= <- <-]; constructor|].
  destruct (select_transaction _ d) as [trx|] eqn:Hsel;
    [|intros [= <- <-]; constructor].
  destruct (paid trx) eqn:Hpaid; [intros [= <- <-]; constructor|].
  destruct (negb _); [intros [= <- <-]; constructor|].
  destruct (sessions_retrieve _ _); [|intros [= <- <-]; constructor].
  case_bool_decide; [|intros [= <- <-]; constructor].
  destruct (tx _ _ _) as [o [p d1]] eqn:E.
  apply (tx_step cfg _ _ _ _ _ _ _ Hsel Hpaid) in E.
  destruct o; by intros [= <- <-].
Qed.

Lemma webhook_step cfg prov faults d sig raw r d' :
  stripe_webhook cfg prov faults d sig raw = (r, d') -> step_effect cfg d d'.
Proof.
  unfold stripe_webhook.
  destruct (_ || _); [intros [= <- <-]; constructor|].
  destruct (constructEvent _ _ _ _) as [ev|e];
    [|intros [= <- <-]; constructor].
  case_bool_decide; [|intros [= <- <-]; constructor].
  cbv zeta.
  destruct (select_transaction _ d) as [trx|] eqn:Hsel;
    [|intros [= <- <-]; constructor].
  destruct (paid trx) eqn:Hpaid; simpl; [intros [= <- <-]; constructor|].
  destruct (tx _ _ _) as [o [p d1]] eqn:E.
  apply (tx_step cfg _ _ _ _ _ _ _ Hsel Hpaid) in E.
  destruct o; by intros [= <- <-].
Qed.

Lemma serve_step cfg d c r d' :
  serve cfg d c = (r, d') -> step_effect cfg d d'.
Proof.
  destruct c as [req prov faults]. unfold serve; simpl.
  destruct req; simpl.
  1-3: intros [= <- <-]; constructor.
  - intros H. apply LedgerFacts.settings_effect in H as [-> | ->]; constructor.
  - apply checkout_step.
  - apply verify_step.
  - apply webhook_step.
Qed.

Lemma run_sound cfg cs : forall d rs d',
  ledger_sound cfg d -> run cfg d cs = (rs, d') -> ledger_sound cfg d'.
Proof.
  induction cs as [|c cs IH]; intros d rs d' Hs; simpl.
  - by intros [= <- <-].
  - destruct (serve cfg d c) as [r d1] eqn:E1.
    destruct (run cfg d1 cs) as [rs' d2] eqn:E2.
    intros [= <- <-]. apply serve_step in E1.
    eapply IH; [|exact E2]. by eapply step_sound.
Qed.

Lemma seeded_sound cfg names d0 :
  seed names empty_db = Ok d0 -> ledger_sound cfg d0.
Proof.
  intros H. destruct (LedgerFacts.seed_zero _ _ H) as [Hz Hnil].
  split; rewrite Hnil; simpl; [apply NoDup_nil_2|done|].
  intros id c E. by rewrite (Hz _ _ E).
Qed.

Lemma reachable_sound cfg names d0 cs rs d :
  seed names empty_db = Ok d0 -> run cfg d0 cs = (rs, d) ->
  ledger_sound cfg d.
Proof.
  intros Hseed Hrun. eapply run_sound; [|exact Hrun]. by eapply seeded_sound.
Qed.

End SoundFacts.

Lemma find_unique_row (l : list transaction) t :
  NoDup (session_id <$> l) -> t ∈ l ->
  List.find (fun t' => bool_decide (session_id t' = session_id t)) l = Some t.
Proof.
  induction l as [|t0 l IH]; intros Hnd Hin; [by apply elem_of_nil in Hin|].
  change (session_id <$> t0 :: l) with (session_id t0 :: (session_id <$> l)) in Hnd.
  apply NoDup_cons in Hnd as [Hnotin Hnd]. simpl.
  apply elem_of_cons in Hin as [->|Hin].
  - by rewrite bool_decide_eq_true_2.
  - rewrite bool_decide_eq_false_2; [by apply IH|].
    intros E. apply Hnotin. rewrite E. by apply list_elem_of_fmap_2.
Qed.

(** X1: in every store the server reaches from the seed, no two
    transactions have the same session id, and looking a transaction up
    by its session id returns that very row. *)
Theorem session_ids_identify_rows cfg names d0 cs rs d :
  seed names empty_db = Ok d0 ->
  run cfg d0 cs = (rs, d) ->
  NoDup (session_id <$> transactions d)
  /\ forall t, t ∈ transactions d ->
               select_transaction (session_id t) d = Some t.
Proof.
  intros Hseed Hrun.
  destruct (SoundFacts.reachable_sound cfg _ _ _ _ _ Hseed Hrun) as [Hu _ _].
  split; [done|]. intros t Hin. by apply find_unique_row.
Qed.

Lemma session_ids_identify_rows_witness :
  NoDup (session_id <$> transactions (run cfg0 db_seeded session_calls).2)
  /\ forall t, t ∈ transactions (run cfg0 db_seeded session_calls).2 ->
               select_transaction (session_id t)
                 (run cfg0 db_seeded session_calls).2 = Some t.
Proof.
  apply (session_ids_identify_rows cfg0 ["Yes"; "No"] db_seeded session_calls
           (run cfg0 db_seeded session_calls).1).
  - vm_compute. reflexivity.
  - reflexivity.
Defined.

(** X2: in every store the server reaches from the seed, the tally of
    each candidate is the sum of the votes of the paid transactions that
    name the candidate: votes are counted when paid for, once, and never
    otherwise. *)
Theorem tally_is_sum_of_paid_votes cfg names d0 cs rs d :
  seed names empty_db = Ok d0 ->
  run cfg d0 cs = (rs, d) ->
  forall id c,
    candidates d !! id = Some c ->
    tally c = paid_votes id (transactions d).
Proof.
  intros Hseed Hrun.
  by destruct (SoundFacts.reachable_sound cfg _ _ _ _ _ Hseed Hrun) as [_ _ Ht].
Qed.

Lemma tally_is_sum_of_paid_votes_witness :
  tally (Candidate "Yes" 2)
  = paid_votes 1 (transactions (run cfg0 db_seeded session_calls).2).
Proof.
  apply (tally_is_sum_of_paid_votes cfg0 ["Yes"; "No"] db_seeded session_calls
           (run cfg0 db_seeded session_calls).1
           (run cfg0 db_seeded session_calls).2).
  - vm_compute. reflexivity.
  - reflexivity.
  - vm_compute. reflexivity.
Defined.



Module KeptFacts.

Lemma row_kept_refl t : row_kept t t.
Proof. by repeat split. Qed.

Lemma row_kept_trans t1 t2 t3 :
  row_kept t1 t2 -> row_kept t2 t3 -> row_kept t1 t3.
Proof.
  intros (a1 & a2 & a3 & a4 & a5 & a6) (b1 & b2 & b3 & b4 & b5 & b6).
  repeat split; try congruence. auto.
Qed.

Lemma rows_kept_refl d : rows_kept d d.
Proof. intros i t E. eauto using row_kept_refl. Qed.

Lemma rows_kept_trans d1 d2 d3 :
  rows_kept d1 d2 -> rows_kept d2 d3 -> rows_kept d1 d3.
Proof.
  intros H12 H23 i t E.
  destruct (H12 _ _ E) as (t2 & E2 & K2).
  destruct (H23 _ _ E2) as (t3 & E3 & K3).
  eauto using row_kept_trans.
Qed.

Lemma row_kept_mark sid t : row_kept t (mark_row sid t).
Proof.
  unfold mark_row. case_bool_decide; [|apply row_kept_refl].
  by repeat split.
Qed.

Lemma mark_rows_lookup sid (l : list transaction) i t :
  l !! i = Some t -> List.map (mark_row sid) l !! i = Some (mark_row sid t).
Proof.
  revert i. induction l as [|t0 l IH]; intros [|i]; simpl; try done.
  - by intros [= ->].
  - apply IH.
Qed.

Lemma effect_rows_kept d d' : effect d d' -> rows_kept d d'.
Proof.
  intros [|q g|row Hrow|sid trx Hsel] i t E; simpl.
  - eauto using row_kept_refl.
  - eauto using row_kept_refl.
  - exists t. split; [|apply row_kept_refl].
    by apply lookup_app_l_Some.
  - exists (mark_row sid t). split; [|apply row_kept_mark].
    by apply mark_rows_lookup.
Qed.

Lemma run_rows_kept cfg cs : forall d, rows_kept d (run cfg d cs).2.
Proof.
  induction cs as [|c cs IH]; intros d; simpl; [apply rows_kept_refl|].
  destruct (serve cfg d c) as [r d1] eqn:E1.
  specialize (IH d1). destruct (run cfg d1 cs) as [rs' d2]. simpl in *.
  eapply rows_kept_trans; [|exact IH].
  apply effect_rows_kept. by eapply LedgerFacts.serve_effect.
Qed.

End KeptFacts.

(** X4: no sequence of requests deletes or reorders a transaction or
    changes its session id, candidate, votes, currency or amount; the
    only change a row ever sees is its paid flag going from false to
    true, and a paid row stays paid. *)
Theorem transactions_are_append_only cfg d cs i t :
  transactions d !! i = Some t ->
  exists t',
    transactions (run cfg d cs).2 !! i = Some t'
    /\ session_id t' = session_id t
    /\ candidate_id t' = candidate_id t
    /\ votes t' = votes t
    /\ currency t' = currency t
    /\ amount_total t' = amount_total t
    /\ (paid t = true -> paid t' = true).
Proof. intros E. by apply (KeptFacts.run_rows_kept cfg cs d). Qed.

Lemma transactions_are_append_only_witness :
  exists t',
    transactions (run cfg0 db5_pending session_calls).2 !! 0%nat = Some t'
    /\ session_id t' = session_id trx_pending
    /\ candidate_id t' = candidate_id trx_pending
    /\ votes t' = votes trx_pending
    /\ currency t' = currency trx_pending
    /\ amount_total t' = amount_total trx_pending
    /\ (paid trx_pending = true -> paid t' = true).
Proof.
  apply (transactions_are_append_only cfg0 db5_pending session_calls 0
           trx_pending).
  reflexivity.
Defined.

(** * The tally reader *)

Module TallyFacts.

Lemma id_le_total : Total id_le.
Proof. intros a b. unfold id_le. lia. Qed.

Lemma id_le_trans : Transitive id_le.
Proof. intros a b c. unfold id_le. lia. Qed.

Lemma strictly_sorted (l : list (Z * candidate)) :
  StronglySorted id_le l -> NoDup l.*1 -> StronglySorted id_lt l.
Proof.
  induction 1 as [|x l Hl IH Hx]; intros Hnd; [constructor|].
  change ((x :: l).*1) with (x.1 :: l.*1) in Hnd.
  apply NoDup_cons in Hnd as [Hnotin Hnd].
  constructor; [by apply IH|].
  rewrite Forall_forall in Hx |- *. intros y Hy.
  specialize (Hx y Hy). unfold id_le in Hx. unfold id_lt.
  assert (x.1 <> y.1); [|lia].
  intros E. apply Hnotin. rewrite E. by apply list_elem_of_fmap_2.
Qed.

Lemma sorted_rows (tbl : gmap Z candidate) :
  StronglySorted id_lt (merge_sort id_le (map_to_list tbl))
  /\ merge_sort id_le (map_to_list tbl) ≡ₚ map_to_list tbl.
Proof.
  pose proof (merge_sort_Permutation id_le (map_to_list tbl)) as HP.
  split; [|done]. apply strictly_sorted.
  - apply (@StronglySorted_merge_sort _ id_le _ id_le_trans id_le_total).
  - rewrite HP. apply NoDup_fst_map_to_list.
Qed.

End TallyFacts.

(** X5: the tally reader lists every candidate of the store exactly
    once, with its id, name and tally, in strictly ascending order of
    id. *)
Theorem tally_reader_sorted d :
  exists rows,
    get_tally d = json (BTally rows)
    /\ StronglySorted id_lt rows
    /\ forall id c, (id, c) ∈ rows <-> candidates d !! id = Some c.
Proof.
  destruct (TallyFacts.sorted_rows (candidates d)) as [Hs HP].
  eexists. split; [reflexivity|]. split; [done|].
  intros id c. rewrite HP. apply elem_of_map_to_list.
Qed.

(** * The seed *)

Module SeedFacts.

(** The fold of [next_id] finds the largest key, or 0 in an empty
    table. *)
Lemma max_key_spec (tbl : gmap Z candidate) :
  let m := map_fold (fun k (_ : candidate) m => Z.max k m) 0 tbl in
  (forall k, is_Some (tbl !! k) -> k <= m)
  /\ (m = 0 \/ is_Some (tbl !! m)).
Proof.
  apply (map_fold_weak_ind
           (fun m (t : gmap Z candidate) =>
              (forall k, is_Some (t !! k) -> k <= m)
              /\ (m = 0 \/ is_Some (t !! m)))).
  - split; [|by left]. intros k [c Hc]. by rewrite lookup_empty in Hc.
  - intros i x t r Hi [Hle Hmax]. split.
    + intros k. rewrite lookup_insert. case_decide; [lia|].
      intros Hk. specialize (Hle _ Hk). lia.
    + destruct (Z.max_spec i r) as [[Hlt ->]|[_ ->]].
      * destruct Hmax as [->|Hr]; [by left|right].
        rewrite lookup_insert. by case_decide.
      * right. by rewrite lookup_insert_eq.
Qed.

Lemma seeded_is_Some done tbl id :
  seeded done tbl ->
  is_Some (tbl !! id) <-> 1 <= id <= Z.of_nat (length done).
Proof.
  intros H. rewrite (H id). unfold seeded_lookup. case_bool_decide as E.
  - rewrite fmap_is_Some, lookup_lt_is_Some. lia.
  - split; [by intros [? ?]|lia].
Qed.

Lemma seeded_next_id done tbl :
  seeded done tbl -> next_id tbl = Z.of_nat (length done) + 1.
Proof.
  intros H. unfold next_id.
  destruct (max_key_spec tbl) as [Hle Hmax].
  set (m := map_fold _ 0 tbl) in *.
  destruct done as [|n done].
  - destruct Hmax as [->|Hm]; [done|].
    apply (seeded_is_Some _ _ _ H) in Hm. simpl in Hm. lia.
  - assert (Z.of_nat (length (n :: done)) <= m) as Hlen.
    { apply Hle, (seeded_is_Some _ _ _ H). simpl. lia. }
    destruct Hmax as [E|Hm]; [simpl in Hlen; lia|].
    apply (seeded_is_Some _ _ _ H) in Hm. lia.
Qed.

Lemma seeded_name_taken done tbl n :
  seeded done tbl -> name_taken n tbl = bool_decide (n ∈ done).
Proof.
  intros H. unfold name_taken. apply bool_decide_ext.
  rewrite Exists_exists. split.
  - intros ([k c] & Hin & Hn). simpl in Hn.
    apply elem_of_map_to_list in Hin. rewrite (H k) in Hin.
    unfold seeded_lookup in Hin. case_bool_decide; [|done].
    destruct (done !! Z.to_nat (k - 1)) as [n'|] eqn:E; [|done].
    injection Hin as <-. simpl in Hn. subst n'.
    apply list_elem_of_lookup. eauto.
  - intros Hin. apply list_elem_of_lookup in Hin as [i Hi].
    exists (Z.of_nat i + 1, Candidate n 0). split; [|done].
    apply elem_of_map_to_list. rewrite (H _). unfold seeded_lookup.
    rewrite bool_decide_eq_true_2 by lia.
    replace (Z.to_nat (Z.of_nat i + 1 - 1)) with i by lia.
    by rewrite Hi.
Qed.

Lemma seeded_insert done tbl n :
  seeded done tbl ->
  seeded (done ++ [n]) (<[Z.of_nat (length done) + 1 := Candidate n 0]> tbl).
Proof.
  intros H id. rewrite lookup_insert. unfold seeded_lookup. case_decide as E.
  - subst id. rewrite bool_decide_eq_true_2 by lia.
    replace (Z.to_nat (Z.of_nat (length done) + 1 - 1)) with (length done) by lia.
    by rewrite list_lookup_middle.
  - rewrite (H id). unfold seeded_lookup. case_bool_decide; [|done].
    f_equal. destruct (decide (Z.to_nat (id - 1) < length done)%nat).
    + by rewrite lookup_app_l.
    + rewrite (lookup_ge_None_2 done) by lia.
      rewrite lookup_ge_None_2; [done|]. rewrite length_app. simpl. lia.
Qed.

Lemma seeded_empty : seeded [] ∅.
Proof.
  intros id. rewrite lookup_empty. unfold seeded_lookup.
  by case_bool_decide.
Qed.

(** Inserting names that are new and distinct succeeds, name after
    name. *)
Lemma seed_all_distinct rest : forall done d,
  seeded done (candidates d) -> NoDup (done ++ rest) ->
  exists d',
    seed_all rest ([], d) = (Ok tt, ([], d'))
    /\ seeded (done ++ rest) (candidates d')
    /\ transactions d' = transactions d
    /\ settings d' = settings d.
Proof.
  induction rest as [|n rest IH]; intros done d Hs Hnd; simpl.
  - exists d. by rewrite app_nil_r.
  - unfold sql_bind, write. simpl. unfold insert_candidate.
    rewrite (seeded_name_taken _ _ n Hs), (seeded_next_id _ _ Hs).
    rewrite bool_decide_eq_false_2.
    2:{ apply NoDup_app in Hnd as (_ & Hnd & _). intros Hin.
        apply (Hnd _ Hin). by left. }
    destruct (IH (done ++ [n])%list
                (Db (<[Z.of_nat (length done) + 1 := Candidate n 0]>
                       (candidates d))
                    (transactions d) (settings d)))
      as (d' & E & Hs' & Ht & Hst).
    + by apply seeded_insert.
    + by rewrite <- app_assoc.
    + exists d'. split; [exact E|]. split; [|done].
      by rewrite <- (app_assoc done [n] rest) in Hs'.
Qed.

(** A name that comes twice stops the seed. *)
Lemma seed_all_duplicate rest : forall done d,
  seeded done (candidates d) -> NoDup done -> ~ NoDup (done ++ rest) ->
  exists d',
    seed_all rest ([], d)
    = (Thrown "UNIQUE constraint failed: candidates.name", ([], d')).
Proof.
  induction rest as [|n rest IH]; intros done d Hs Hnd Hdup; simpl.
  - destruct Hdup. by rewrite app_nil_r.
  - unfold sql_bind, write. simpl. unfold insert_candidate.
    rewrite (seeded_name_taken _ _ n Hs), (seeded_next_id _ _ Hs).
    case_bool_decide as Hin; [eauto|].
    apply (IH (done ++ [n])%list).
    + by apply seeded_insert.
    + apply NoDup_app. split; [done|]. split; [|apply NoDup_singleton].
      intros x Hx Hx'. apply list_elem_of_singleton in Hx'. by subst x.
    + by rewrite <- app_assoc.
Qed.

Lemma rows_from_elem names : forall k id c,
  (id, c) ∈ rows_from k names
  <-> exists i n, names !! i = Some n /\ id = k + Z.of_nat i
                  /\ c = Candidate n 0.
Proof.
  induction names as [|n names IH]; intros k id c; simpl.
  - split; [intros H; by apply elem_of_nil in H|by intros (i & n & H & _)].
  - rewrite elem_of_cons, IH. split.
    + intros [[= -> ->]|(i & n' & Hi & -> & ->)].
      * exists 0%nat, n. split; [done|]. split; [lia|done].
      * exists (S i), n'. split; [done|]. split; [lia|done].
    + intros ([|i] & n' & Hi & -> & ->); simpl in Hi.
      * injection Hi as ->. left. f_equal. lia.
      * right. exists i, n'. split; [done|]. split; [lia|done].
Qed.

Lemma rows_from_sorted names : forall k, StronglySorted id_lt (rows_from k names).
Proof.
  induction names as [|n names IH]; intros k; simpl; constructor; [apply IH|].
  apply Forall_forall. intros [id c] Hin.
  apply rows_from_elem in Hin as (i & n' & _ & -> & _).
  unfold id_lt. simpl. lia.
Qed.

Lemma strictly_sorted_NoDup (l : list (Z * candidate)) :
  StronglySorted id_lt l -> NoDup l.
Proof.
  induction 1 as [|x l Hl IH Hx]; constructor; [|done].
  intros Hin. rewrite Forall_forall in Hx. specialize (Hx _ Hin).
  unfold id_lt in Hx. lia.
Qed.

(** The reader's answer on a table the seed has filled. *)
Lemma seeded_tally names d :
  seeded names (candidates d) ->
  get_tally d = json (BTally (rows_from 1 names)).
Proof.
  intros Hs. unfold get_tally. do 2 f_equal.
  destruct (TallyFacts.sorted_rows (candidates d)) as [Hsorted HP].
  apply (StronglySorted_unique_strong id_lt);
    [|done|apply rows_from_sorted|].
  { intros x1 x2 _ _. unfold id_lt. lia. }
  apply NoDup_Permutation;
    [by apply strictly_sorted_NoDup
    |apply strictly_sorted_NoDup, rows_from_sorted|].
  intros [id c]. rewrite HP, elem_of_map_to_list, (Hs id), rows_from_elem.
  unfold seeded_lookup. case_bool_decide as E.
  - split.
    + destruct (names !! Z.to_nat (id - 1)) as [n|] eqn:En; [|done].
      intros [= <-]. exists (Z.to_nat (id - 1)), n.
      split; [done|]. split; [lia|done].
    + intros (i & n & Hi & -> & ->).
      replace (Z.to_nat (1 + Z.of_nat i - 1)) with i by lia.
      by rewrite Hi.
  - split; [done|]. intros (i & n & _ & -> & _). lia.
Qed.

Lemma seed_distinct names :
  NoDup names ->
  exists d0,
    seed names empty_db = Ok d0
    /\ seeded names (candidates d0)
    /\ transactions d0 = []
    /\ settings d0 = settings empty_db.
Proof.
  intros Hnd.
  destruct (seed_all_distinct names [] empty_db seeded_empty Hnd)
    as (d0 & E & Hs & Ht & Hst).
  exists d0. split; [|done].
  unfold seed. rewrite bool_decide_eq_true_2 by done.
  unfold db_transaction. cbn [next_fault]. unfold plan in *.
  rewrite E. reflexivity.
Qed.

End SeedFacts.

(** X6: on a first start with pairwise distinct configured names the
    seed succeeds, and the tally reader then lists exactly those names,
    in the configured order, with ids 1, 2, ... and tally 0; nothing else
    in the store is touched. *)
Theorem first_start_lists_names names :
  NoDup names ->
  exists d0,
    seed names empty_db = Ok d0
    /\ get_tally d0 = json (BTally (rows_from 1 names))
    /\ transactions d0 = []
    /\ settings d0 = settings empty_db.
Proof.
  intros Hnd.
  destruct (SeedFacts.seed_distinct names Hnd) as (d0 & E & Hs & Ht & Hst).
  exists d0. split; [done|]. split; [|done].
  by apply SeedFacts.seeded_tally.
Qed.

Lemma first_start_lists_names_witness :
  exists d0,
    seed ["Yes"; "No"; "Maybe"] empty_db = Ok d0
    /\ get_tally d0
       = json (BTally [(1, Candidate "Yes" 0); (2, Candidate "No" 0);
                       (3, Candidate "Maybe" 0)])
    /\ transactions d0 = []
    /\ settings d0 = settings empty_db.
Proof.
  apply (first_start_lists_names ["Yes"; "No"; "Maybe"]).
  refine (bool_decide_unpack (NoDup ["Yes"; "No"; "Maybe"]) _).
  vm_compute. exact I.
Defined.

(** X7: when a configured name comes twice, the seed throws on the
    UNIQUE constraint of [candidates.name]: the start-up fails and its
    transaction leaves no candidate behind. *)
Theorem seed_rejects_repeated_name names :
  ~ NoDup names ->
  seed names empty_db = Thrown "UNIQUE constraint failed: candidates.name".
Proof.
  intros Hdup.
  destruct (SeedFacts.seed_all_duplicate names [] empty_db
              SeedFacts.seeded_empty (NoDup_nil_2) Hdup) as (d' & E).
  unfold seed. rewrite bool_decide_eq_true_2 by done.
  unfold db_transaction. cbn [next_fault]. unfold plan in *.
  rewrite E. reflexivity.
Qed.

Lemma seed_rejects_repeated_name_witness :
  seed ["Yes"; "No"; "Yes"] empty_db
  = Thrown "UNIQUE constraint failed: candidates.name".
Proof.
  apply (seed_rejects_repeated_name ["Yes"; "No"; "Yes"]).
  intros H. apply (bool_decide_pack (NoDup ["Yes"; "No"; "Yes"])) in H.
  vm_compute in H. exact H.
Defined.

(** X8: once a start has seeded at least one candidate, a later start
    never seeds again, whatever happened in between and whatever names
    are then configured: the restart leaves the store, and with it every
    tally, as it found it. *)
Theorem restart_keeps_ledger cfg names d0 cs names' :
  seed names empty_db = Ok d0 ->
  names <> [] ->
  seed names' (run cfg d0 cs).2 = Ok (run cfg d0 cs).2.
Proof.
  intros Hseed Hne.
  destruct (decide (NoDup names)) as [Hnd|Hdup].
  2:{ rewrite (seed_rejects_repeated_name _ Hdup) in Hseed. discriminate. }
  destruct (SeedFacts.seed_distinct names Hnd) as (d0' & E & Hs & _).
  rewrite Hseed in E. injection E as <-.
  assert (is_Some (candidates d0 !! 1)) as [c Hc].
  { apply (SeedFacts.seeded_is_Some _ _ _ Hs).
    destruct names; [done|]. simpl. lia. }
  destruct (LedgerFacts.seed_zero _ _ Hseed) as [Hzero Hnil].
  assert (ledger_ok d0) as Hok.
  { split; [|by rewrite Hnil]. intros id c' E. rewrite (Hzero _ _ E). lia. }
  destruct (run cfg d0 cs) as [rs d] eqn:Hrun. simpl.
  destruct (LedgerFacts.run_ledger _ _ _ _ _ Hok Hrun) as [_ Hle].
  destruct (Hle _ _ Hc) as (c' & Hc' & _).
  unfold seed. rewrite bool_decide_eq_false_2; [done|].
  intros Hempty. by rewrite Hempty, lookup_empty in Hc'.
Qed.

Lemma restart_keeps_ledger_witness :
  seed ["Red"; "Blue"] (run cfg0 db_seeded session_calls).2
  = Ok (run cfg0 db_seeded session_calls).2.
Proof.
  apply (restart_keeps_ledger cfg0 ["Yes"; "No"] db_seeded session_calls
           ["Red"; "Blue"]).
  - vm_compute. reflexivity.
  - discriminate.
Defined.

(** * Checkout, from the request to the confirmed vote *)

(** X9: the session id a successful checkout hands back was unused
    before and now finds the row the call appended, a pending row for
    that session. *)
Theorem checkout_row_can_be_found cfg prov faults d b r d' :
  create_checkout_session cfg prov faults d b = (r, d') ->
  status r = 200 ->
  exists id url row,
    r = json (BSession id url)
    /\ select_transaction id d = None
    /\ select_transaction id d' = Some row
    /\ session_id row = id
    /\ paid row = false
    /\ transactions d' = (transactions d ++ [row])%list.
Proof.
  intros H Hst.
  apply CheckoutFacts.checkout_cases in H
    as [[Hne _]|(ps & sess & cid & cand & H)]; [done|].
  cbv zeta in H.
  destruct H as (_ & _ & _ & _ & _ & _ & _ & _ & Hnew & -> & ->).
  eexists _, _, _. split; [reflexivity|]. split; [done|].
  split; [by apply CheckoutFacts.select_appended|]. by repeat split.
Qed.

Lemma checkout_row_can_be_found_witness :
  exists id url row,
    json (BSession "cs_1" "https://checkout.stripe.com/c/pay/cs_1")
    = json (BSession id url)
    /\ select_transaction id db5 = None
    /\ select_transaction id db5_pending = Some row
    /\ session_id row = id
    /\ paid row = false
    /\ transactions db5_pending = (transactions db5 ++ [row])%list.
Proof.
  apply (checkout_row_can_be_found cfg0 (provider_ok "unpaid") [] db5
           (body3 (Some "usd"))).
  - vm_compute. reflexivity.
  - reflexivity.
Defined.

(** X10: what a successful checkout asked the provider to charge is
    what the ledger records: the new row carries the session's id and the
    currency, amount, candidate and vote count of the request to the
    provider. *)
Theorem charged_is_recorded cfg prov faults d b r d' :
  create_checkout_session cfg prov faults d b = (r, d') ->
  status r = 200 ->
  exists ps sess row,
    sessions_create prov ps = Ok sess
    /\ transactions d' = (transactions d ++ [row])%list
    /\ session_id row = s_id sess
    /\ currency row = sp_currency ps
    /\ amount_total row = sp_unit_amount ps
    /\ JS.string_of_Z (candidate_id row) = sp_candidate_id ps
    /\ JS.string_of_Z (votes row) = sp_votes ps.
Proof.
  intros H Hst.
  apply CheckoutFacts.checkout_cases in H
    as [[Hne _]|(ps & sess & cid & cand & H)]; [done|].
  cbv zeta in H.
  destruct H as (_ & _ & _ & Hcreate & _ & _ & Hc & Hv & _ & _ & ->).
  eexists ps, sess, _. split; [done|]. split; [reflexivity|].
  simpl. by repeat split.
Qed.

Lemma charged_is_recorded_witness :
  exists ps sess row,
    sessions_create (provider_ok "unpaid") ps = Ok sess
    /\ transactions db5_pending = (transactions db5 ++ [row])%list
    /\ session_id row = s_id sess
    /\ currency row = sp_currency ps
    /\ amount_total row = sp_unit_amount ps
    /\ JS.string_of_Z (candidate_id row) = sp_candidate_id ps
    /\ JS.string_of_Z (votes row) = sp_votes ps.
Proof.
  apply (charged_is_recorded cfg0 (provider_ok "unpaid") [] db5
           (body3 (Some "usd"))
           (json (BSession "cs_1" "https://checkout.stripe.com/c/pay/cs_1"))).
  - vm_compute. reflexivity.
  - reflexivity.
Defined.

(** X11: when the provider hands back a session id that a transaction
    already carries, the UNIQUE constraint refuses the insert: the call
    does not succeed and the store is left as it was. *)
Theorem reused_session_id_is_refused cfg prov faults d b sess t r d' :
  (forall ps, sessions_create prov ps = Ok sess) ->
  select_transaction (s_id sess) d = Some t ->
  create_checkout_session cfg prov faults d b = (r, d') ->
  status r <> 200 /\ d' = d.
Proof.
  intros Hprov Hold H.
  apply CheckoutFacts.checkout_cases in H
    as [(? & _ & ?)|(ps & sess' & cid & cand & H)]; [done|].
  cbv zeta in H. destruct H as (_ & _ & _ & Hcreate & _ & _ & _ & _ & Hnew & _).
  rewrite Hprov in Hcreate. injection Hcreate as <-.
  by rewrite Hold in Hnew.
Qed.

Lemma reused_session_id_is_refused_witness :
  status (Response 500 (BError
    "Failed to create checkout session: UNIQUE constraint failed: transactions.session_id"))
  <> 200
  /\ db5_pending = db5_pending.
Proof.
  apply (reused_session_id_is_refused cfg0 (provider_ok "unpaid") []
           db5_pending (body3 None)
           (Session "cs_1" "https://checkout.stripe.com/c/pay/cs_1")
           trx_pending).
  - reflexivity.
  - reflexivity.
  - vm_compute. reflexivity.
Defined.

(** X12: a checkout that succeeded and is then confirmed on the pull
    path, the provider reporting the session as paid and the engine not
    failing, raises the tally of the requested candidate by exactly the
    coerced vote count of the request, and of no other candidate. *)
Theorem paid_checkout_is_counted cfg prov faults d b r d1 prov2 :
  create_checkout_session cfg prov faults d b = (r, d1) ->
  status r = 200 ->
  exists id url cid cand,
    r = json (BSession id url)
    /\ b_candidateId b = Some cid
    /\ candidates d !! cid = Some cand
    /\ (id <> "" ->
        sessions_retrieve prov2 id = Ok "paid" ->
        exists d2,
          verify_session cfg prov2 [] d1 (Some id) = (json BCounted, d2)
          /\ candidates d2
             = <[cid := Candidate (name cand)
                          (tally cand + coerce_votes (JS.parseInt (b_votes b)))]>
                 (candidates d)).
Proof.
  intros H Hst.
  apply CheckoutFacts.checkout_cases in H
    as [[Hne _]|(ps & sess & cid & cand & H)]; [done|].
  cbv zeta in H.
  destruct H as (Hstripe & Hcid & Hcand & _ & _ & _ & _ & _ & Hnew & -> & ->).
  exists (s_id sess), (s_url sess), cid, cand.
  split; [done|]. split; [done|]. split; [done|].
  intros Hne Hret.
  set (row := Transaction _ _ _ _ _ _).
  set (d1 := Db _ _ _).
  assert (select_transaction (s_id sess) d1 = Some row) as Hsel
    by (by apply CheckoutFacts.select_appended).
  exists (counted (s_id sess) row d1). split.
  - by apply CheckoutFacts.verify_counts.
  - unfold counted, inc_tally, mark_paid; simpl.
    apply map_eq. intros k. rewrite lookup_alter, lookup_insert.
    case_decide; [subst k; by rewrite Hcand|done].
Qed.

Lemma paid_checkout_is_counted_witness :
  exists id url cid cand,
    json (BSession "cs_1" "https://checkout.stripe.com/c/pay/cs_1")
    = json (BSession id url)
    /\ b_candidateId (body3 (Some "usd")) = Some cid
    /\ candidates db5 !! cid = Some cand
    /\ (id <> "" ->
        sessions_retrieve (provider_ok "paid") id = Ok "paid" ->
        exists d2,
          verify_session cfg0 (provider_ok "paid") [] db5_pending (Some id)
          = (json BCounted, d2)
          /\ candidates d2
             = <[cid := Candidate (name cand)
                          (tally cand
                           + coerce_votes (JS.parseInt (b_votes (body3 (Some "usd")))))]>
                 (candidates db5)).
Proof.
  apply (paid_checkout_is_counted cfg0 (provider_ok "unpaid") [] db5
           (body3 (Some "usd"))
           (json (BSession "cs_1" "https://checkout.stripe.com/c/pay/cs_1"))
           db5_pending (provider_ok "paid")).
  - vm_compute. reflexivity.
  - reflexivity.
Defined.

(** * The page and the server together *)

Module PageFacts.



(** What the pull path can answer, and the store that goes with each
    answer. *)
Lemma verify_cases cfg prov faults d q r d' :
  verify_session cfg prov faults d q = (r, d') ->
  (r = json BCounted
   /\ exists sid trx, q = Some sid /\ select_transaction sid d = Some trx
                      /\ paid trx = false /\ d' = counted sid trx d)
  \/ (d' = d
      /\ (r = json BAlreadyCounted \/ r = json BNotPaid
          \/ exists st e, r = Response st (BError e))).
Proof.
  unfold verify_session.
  destruct (JS.truthy_opt q) eqn:Hq; simpl;
    [|intros [= <- <-]; right; eauto 10].
  destruct q as [sid|]; [|done]. simpl.
  destruct (select_transaction sid d) as [trx|] eqn:Hsel;
    [|intros [= <- <-]; right; eauto 10].
  destruct (paid trx) eqn:Hpaid; [intros [= <- <-]; right; eauto 10|].
  destruct (stripe cfg); simpl; [|intros [= <- <-]; right; eauto 10].
  destruct (sessions_retrieve _ _); [|intros [= <- <-]; right; eauto 10].
  case_bool_decide; [|intros [= <- <-]; right; eauto 10].
  destruct (StoreFacts.tx_cases sid trx faults d) as [(p & ->)|(e & p & ->)];
    intros [= <- <-]; [left|right]; eauto 10.
Qed.

End PageFacts.



(** X14: a settings write and the next read.  A field written with a
    string reads back as that string, except that an empty glow reads
    back as the default colour; a field the write does not supply reads
    as it did before. *)
Theorem settings_write_then_read cfg d authorization q g r d' :
  authorized cfg authorization ->
  admin_settings cfg [] d authorization q g = (r, d') ->
  exists qq gg,
    get_settings cfg d' = json (BSettings qq gg (INSTAGRAM_URL cfg))
    /\ (forall s, q = Some s -> qq = s)
    /\ (forall s, g = Some s -> gg = if JS.truthy s then s else "#00ffff")
    /\ (q = None -> qq = JS.or_default (question (settings d)) "")
    /\ (g = None -> gg = JS.or_default (glow (settings d)) "#00ffff").
Proof.
  intros [Htok ->]. unfold admin_settings. simpl.
  rewrite (StoreFacts.truthy_nonempty _ Htok). simpl.
  rewrite bool_decide_eq_true_2 by done. simpl.
  intros [= <- <-]. eexists _, _. split; [reflexivity|]. simpl.
  split; [|split; [|split]].
  - intros s ->. simpl. by destruct s.
  - by intros s ->.
  - by intros ->.
  - by intros ->.
Qed.

Lemma settings_write_then_read_witness :
  exists qq gg,
    get_settings cfg0 (update_settings (Some "Is it NO?") (Some "") db5)
    = json (BSettings qq gg (INSTAGRAM_URL cfg0))
    /\ (forall s, Some "Is it NO?" = Some s -> qq = s)
    /\ (forall s, Some "" = Some s -> gg = if JS.truthy s then s else "#00ffff")
    /\ ((Some "Is it NO?" : option string) = None ->
        qq = JS.or_default (question (settings db5)) "")
    /\ ((Some "" : option string) = None ->
        gg = JS.or_default (glow (settings db5)) "#00ffff").
Proof.
  apply (settings_write_then_read cfg0 db5 (Some "Bearer s3cret")
           (Some "Is it NO?") (Some "") (json BOk)).
  - split; [discriminate|reflexivity].
  - reflexivity.
Defined.

(** X15: on a configured server, a correctly signed notification that
    is not a completion, or that is about a session the ledger does not
    know or has already counted, is acknowledged with [{received:true}]
    and changes nothing. *)
Theorem webhook_acknowledges_without_effect cfg prov faults d sig raw ev :
  webhook_configured cfg ->
  constructEvent prov raw sig (default "" (STRIPE_WEBHOOK_SECRET cfg)) = Ok ev ->
  ev_type ev <> "checkout.session.completed"
  \/ select_transaction (ev_object_id ev) d = None
  \/ (exists t, select_transaction (ev_object_id ev) d = Some t
                /\ paid t = true) ->
  stripe_webhook cfg prov faults d sig raw = (json (BReceived None), d).
Proof.
  intros [Hsec Hstripe] Hev Hcase. unfold stripe_webhook.
  rewrite Hsec, Hstripe, Hev. simpl.
  case_bool_decide as Ht; [|done].
  destruct Hcase as [Hne|[Hnone|(t & Hsel & Hpaid)]]; [done| |].
  - by rewrite Hnone.
  - by rewrite Hsel, Hpaid.
Qed.

Lemma webhook_acknowledges_without_effect_witness :
  stripe_webhook cfg0 (provider_ok "paid") [] db5 (Some "t=1,v1=5257a8") "{}"
  = (json (BReceived None), db5).
Proof.
  apply (webhook_acknowledges_without_effect cfg0 (provider_ok "paid") [] db5
           (Some "t=1,v1=5257a8") "{}"
           (Event "checkout.session.completed" "cs_1")).
  - split; reflexivity.
  - reflexivity.
  - right. left. reflexivity.
Defined.

(** X16: after the redirect, the page says "Payment verified! Votes
    counted." only when this very request counted the votes of a pending
    transaction; with any other message, or none, the store is as it
    was. *)
Theorem page_reports_counted_votes cfg prov faults d status session_id m d' :
  after_redirect cfg prov faults d status session_id = (m, d') ->
  (m = Some "Payment verified! Votes counted." ->
   exists sid trx,
     session_id = Some sid
     /\ select_transaction sid d = Some trx
     /\ paid trx = false
     /\ d' = counted sid trx d)
  /\ (m <> Some "Payment verified! Votes counted." -> d' = d).
Proof.
  unfold after_redirect.
  destruct (_ && _).
  - destruct (verify_session _ _ _ _ _) as [r d1] eqn:E.
    intros [= <- <-].
    apply PageFacts.verify_cases in E
      as [[-> (sid & trx & H)]|[-> [->|[->|(st & e & ->)]]]].
    + split; [eauto|]. intros Hm. by destruct Hm.
    + split; [discriminate|done].
    + split; [discriminate|done].
    + split; [discriminate|done].
  - case_bool_decide; intros [= <- <-]; (split; [discriminate|done]).
Qed.

Lemma page_reports_counted_votes_witness :
  exists sid trx,
    Some "cs_1" = Some sid
    /\ select_transaction sid db5_pending = Some trx
    /\ paid trx = false
    /\ db5_paid = counted sid trx db5_pending.
Proof.
  refine (proj1 (page_reports_counted_votes cfg0 (provider_ok "paid") []
                   db5_pending (Some "success") (Some "cs_1")
                   (Some "Payment verified! Votes counted.") db5_paid _) _).
  - vm_compute. reflexivity.
  - reflexivity.
Defined.

(** * The CORS middleware *)

Module CorsFacts.

Lemma append_cons c r s : String c r ++ s = String c (r ++ s).
Proof. reflexivity. Qed.

Lemma append_nonempty o s : s <> "" -> o ++ s <> "".
Proof. destruct o; [done|]. by rewrite append_cons. Qed.

Lemma strip_slash_snoc o : strip_slash (o ++ "/") = o.
Proof.
  induction o as [|c r IH]; [reflexivity|].
  rewrite append_cons. simpl.
  destruct (r ++ "/") as [|c' r'] eqn:E.
  - by apply append_nonempty in E.
  - by rewrite IH.
Qed.

Lemma strip_slash_id o : endsWith o "/" = false -> strip_slash o = o.
Proof.
  induction o as [|c r IH]; [done|]. simpl.
  intros H. apply orb_false_iff in H as [Hc Hr].
  destruct r as [|c' r']; [|by rewrite (IH Hr)].
  destruct (decide (c = "/"%char)) as [->|Hne].
  - by rewrite bool_decide_eq_true_2 in Hc.
  - by rewrite bool_decide_eq_false_2.
Qed.

End CorsFacts.

(** X17: one trailing slash on the Origin header makes no difference to
    the check: an origin and the same origin followed by a slash are
    both allowed or both refused. *)
Theorem origin_trailing_slash_ignored url_host cfg o :
  o <> "" ->
  endsWith o "/" = false ->
  isAllowedOrigin url_host cfg (Some (o ++ "/"))
  = isAllowedOrigin url_host cfg (Some o).
Proof.
  intros Hne Hend. unfold isAllowedOrigin. simpl.
  rewrite (StoreFacts.truthy_nonempty _ Hne).
  rewrite (StoreFacts.truthy_nonempty (o ++ "/"))
    by (by apply CorsFacts.append_nonempty).
  simpl. by rewrite CorsFacts.strip_slash_snoc, (CorsFacts.strip_slash_id _ Hend).
Qed.

Lemma origin_trailing_slash_ignored_witness :
  isAllowedOrigin (fun _ => Thrown "Invalid URL") cfg0
    (Some ("http://localhost:5173" ++ "/"))
  = isAllowedOrigin (fun _ => Thrown "Invalid URL") cfg0
      (Some "http://localhost:5173").
Proof.
  apply (origin_trailing_slash_ignored (fun _ => Thrown "Invalid URL") cfg0
           "http://localhost:5173").
  - discriminate.
  - vm_compute. reflexivity.
Defined.

(** X18: the configured front end, sent with its trailing slash, is
    allowed whatever the URL parser makes of it; any other origin that
    the URL parser throws on is refused. *)
Theorem unparsable_origin_refused url_host cfg o e :
  o <> "" ->
  url_host (strip_slash o) = Thrown e ->
  isAllowedOrigin url_host cfg (Some (FRONTEND_URL cfg ++ "/")) = true
  /\ (isAllowedOrigin url_host cfg (Some o) = true
      <-> strip_slash o = FRONTEND_URL cfg).
Proof.
  intros Hne Hthrow. split.
  - unfold isAllowedOrigin. simpl.
    rewrite (StoreFacts.truthy_nonempty (FRONTEND_URL cfg ++ "/"))
      by (by apply CorsFacts.append_nonempty).
    simpl. rewrite CorsFacts.strip_slash_snoc.
    by rewrite bool_decide_eq_true_2.
  - unfold isAllowedOrigin. simpl.
    rewrite (StoreFacts.truthy_nonempty _ Hne). simpl.
    case_bool_decide; [done|]. by rewrite Hthrow.
Qed.

Lemma unparsable_origin_refused_witness :
  isAllowedOrigin (fun _ => Thrown "Invalid URL") cfg0
    (Some (FRONTEND_URL cfg0 ++ "/")) = true
  /\ (isAllowedOrigin (fun _ => Thrown "Invalid URL") cfg0 (Some "null") = true
      <-> strip_slash "null" = FRONTEND_URL cfg0).
Proof.
  apply (unparsable_origin_refused (fun _ => Thrown "Invalid URL") cfg0
           "null" "Invalid URL").
  - discriminate.
  - reflexivity.
Defined.

(** X19: the two revisions of the origin check.  For a request that
    carries an Origin header, whatever the earlier check allows the
    later one allows too; a request without the header passes the
    earlier check and fails the later one. *)
Theorem allowCors_extends_isAllowedOrigin url_host cfg :
  (forall o, o <> "" ->
             isAllowedOrigin url_host cfg (Some o) = true ->
             allowCors url_host cfg (Some o) = true)
  /\ isAllowedOrigin url_host cfg None = true
  /\ allowCors url_host cfg None = false.
Proof.
  split; [|done]. intros o Hne. unfold isAllowedOrigin, allowCors. simpl.
  rewrite (StoreFacts.truthy_nonempty _ Hne). simpl.
  case_bool_decide; [done|].
  destruct (url_host _) as [host|]; [|done].
  destruct (endsWith host ".onrender.com"); [done|].
  by destruct (endsWith host ".app.github.dev").
Qed.

(** X20: the Origin header never decides whether a request is
    processed.  An OPTIONS request ends with status 204 and the store
    untouched, and for any other method the route's answer and the store
    afterwards are those of the handler, the same for every origin,
    allowed or not; the check only decides whether the five headers are
    set. *)
Theorem origin_never_blocks_a_request url_host cfg prov faults d o1 o2 m r :
  let a1 := app url_host cfg prov faults d o1 m r in
  let a2 := app url_host cfg prov faults d o2 m r in
  a1.1.2 = a2.1.2
  /\ a1.2 = a2.2
  /\ (m = "OPTIONS" -> a1.1.2 = Response 204 (BText "") /\ a1.2 = d)
  /\ (m <> "OPTIONS" -> (a1.1.2, a1.2) = handle cfg prov faults d r)
  /\ (a1.1.1 = [] \/ a1.1.1 = cors_headers o1).
Proof.
  unfold app. cbv zeta.
  destruct (handle cfg prov faults d r) as [res d'].
  case_bool_decide; simpl.
  - repeat split; try done. destruct (isAllowedOrigin _ _ _); auto.
  - repeat split; try done. destruct (isAllowedOrigin _ _ _); auto.
Qed.

(** * The price *)



(** * The earlier revision *)

(** X22: the earlier pull path differs from the later one only on a
    server without a Stripe client: with a client the two answer alike
    and leave the same store; without one the earlier path answers 400
    to everything, an already counted session included. *)
Theorem early_verify_needs_the_client cfg prov faults d q :
  (stripe cfg = true ->
   verify_session_early cfg prov faults d q
   = verify_session cfg prov faults d q)
  /\ (stripe cfg = false ->
      verify_session_early cfg prov faults d q
      = (Response 400 (BError "Stripe not configured"), d)).
Proof.
  unfold verify_session_early, verify_session. split; intros ->; simpl; [|done].
  destruct (negb _); [done|].
  destruct (select_transaction _ _) as [trx|]; [|done].
  by destruct (paid trx).
Qed.

Module SeedRouteFacts.

Lemma name_taken_spec n (tbl : gmap Z candidate) :
  name_taken n tbl = true <-> exists k c, tbl !! k = Some c /\ name c = n.
Proof.
  unfold name_taken. rewrite bool_decide_eq_true, Exists_exists. split.
  - intros ([k c] & Hin & Hn). apply elem_of_map_to_list in Hin. eauto.
  - intros (k & c & Hk & Hn). exists (k, c). split; [|done].
    by apply elem_of_map_to_list.
Qed.

Lemma next_id_fresh (tbl : gmap Z candidate) : tbl !! next_id tbl = None.
Proof.
  destruct (tbl !! next_id tbl) as [c|] eqn:E; [|done].
  destruct (SeedFacts.max_key_spec tbl) as [Hle _].
  specialize (Hle (next_id tbl) (mk_is_Some _ _ E)).
  unfold next_id in Hle. lia.
Qed.

Lemma new_key_fresh seq (tbl : gmap Z candidate) :
  tbl !! new_key seq tbl = None.
Proof.
  destruct (tbl !! new_key seq tbl) as [c|] eqn:E; [|done].
  destruct (SeedFacts.max_key_spec tbl) as [Hle _].
  specialize (Hle _ (mk_is_Some _ _ E)).
  unfold new_key, next_id in Hle. lia.
Qed.

Lemma rows_stay_refl d : rows_stay d d.
Proof. by repeat split. Qed.

Lemma rows_stay_trans d1 d2 d3 :
  rows_stay d1 d2 -> rows_stay d2 d3 -> rows_stay d1 d3.
Proof.
  intros (a1 & a2 & a3) (b1 & b2 & b3).
  repeat split; [auto|congruence|congruence].
Qed.

Lemma rows_stay_taken d d' n :
  rows_stay d d' -> name_taken n (candidates d) = true ->
  name_taken n (candidates d') = true.
Proof.
  intros [H _]. rewrite !name_taken_spec. intros (k & c & Hk & Hn).
  exists k, c. split; [by apply H|done].
Qed.

Lemma insert_or_ignore_stays seq n d d' :
  insert_or_ignore_candidate (new_key seq (candidates d)) n d = Ok d' ->
  rows_stay d d' /\ name_taken n (candidates d') = true.
Proof.
  unfold insert_or_ignore_candidate.
  destruct (name_taken n (candidates d)) eqn:Ht.
  - intros [= <-]. split; [apply rows_stay_refl|done].
  - intros [= <-]. split.
    + repeat split; simpl. intros id c Hid.
      rewrite lookup_insert_ne; [done|].
      intros <-. by rewrite new_key_fresh in Hid.
    + apply name_taken_spec. simpl.
      exists (new_key seq (candidates d)), (Candidate n 0).
      by rewrite lookup_insert_eq.
Qed.

Lemma seed_missing_stays names : forall seq p d o p' d',
  seed_missing seq names (p, d) = (o, (p', d')) ->
  rows_stay d d'
  /\ (o = Ok tt -> Forall (fun n => name_taken n (candidates d') = true) names).
Proof.
  induction names as [|n names IH]; intros seq p d o p' d'; simpl.
  - intros [= <- <- <-]. split; [apply rows_stay_refl|done].
  - unfold sql_bind, write.
    destruct (next_fault p) as [[] p1].
    { intros [= <- <- <-]. split; [apply rows_stay_refl|done]. }
    destruct (insert_or_ignore_candidate _ n d) as [d1|e] eqn:E.
    2:{ intros [= <- <- <-]. split; [apply rows_stay_refl|done]. }
    apply insert_or_ignore_stays in E as [Hs Ht].
    intros H. apply IH in H as [Hs' Hall].
    split; [by eapply rows_stay_trans|].
    intros Ho. constructor; [by eapply rows_stay_taken|by apply Hall].
Qed.

Lemma seed_missing_runs names : forall seq d,
  exists d', seed_missing seq names ([], d) = (Ok tt, ([], d')).
Proof.
  induction names as [|n names IH]; intros seq d; simpl; [by exists d|].
  unfold sql_bind, write. simpl. unfold insert_or_ignore_candidate.
  destruct (name_taken n (candidates d)); apply IH.
Qed.

Lemma seed_missing_noop names : forall seq d,
  Forall (fun n => name_taken n (candidates d) = true) names ->
  seed_missing seq names ([], d) = (Ok tt, ([], d)).
Proof.
  induction names as [|n names IH]; intros seq d Hall; simpl; [done|].
  apply Forall_cons in Hall as [Hn Hall].
  unfold sql_bind, write. simpl. unfold insert_or_ignore_candidate.
  rewrite Hn. by apply IH.
Qed.

End SeedRouteFacts.

(** X24: seeding on demand never touches what is there: whoever calls
    the route, whichever keys the table has given out before and
    whatever the engine does, every candidate keeps its id, name and
    tally, and the transactions and the settings are as they were. *)
Theorem admin_seed_keeps_the_ledger cfg names seq faults d authorization r d' :
  admin_seed cfg names seq faults d authorization = (r, d') ->
  (forall id c, candidates d !! id = Some c -> candidates d' !! id = Some c)
  /\ transactions d' = transactions d
  /\ settings d' = settings d.
Proof.
  unfold admin_seed. destruct (negb _); [by intros [= <- <-]|].
  destruct (db_transaction _ _) as [o [p d1]] eqn:E.
  intros H. assert (d' = d1) as -> by (destruct o; by injection H).
  apply StoreFacts.db_transaction_cases in E as [->|(a & p1 & p2 & E)].
  - apply SeedRouteFacts.rows_stay_refl.
  - by apply SeedRouteFacts.seed_missing_stays in E as [Hs _].
Qed.

Lemma admin_seed_keeps_the_ledger_witness :
  (forall id c,
     candidates db5 !! id = Some c ->
     candidates (admin_seed cfg0 ["Yes"; "Maybe"] 2 [] db5
                   (Some "Bearer s3cret")).2 !! id = Some c)
  /\ transactions (admin_seed cfg0 ["Yes"; "Maybe"] 2 [] db5
                     (Some "Bearer s3cret")).2 = transactions db5
  /\ settings (admin_seed cfg0 ["Yes"; "Maybe"] 2 [] db5
                 (Some "Bearer s3cret")).2 = settings db5.
Proof.
  apply (admin_seed_keeps_the_ledger cfg0 ["Yes"; "Maybe"] 2 [] db5
           (Some "Bearer s3cret")
           (admin_seed cfg0 ["Yes"; "Maybe"] 2 [] db5 (Some "Bearer s3cret")).1).
  reflexivity.
Defined.

(** X25: with the right header and an engine that does not fail,
    seeding on demand answers with the tally, leaves every configured
    name in the table, and is idempotent: the same call again, with
    whatever keys used up in between, gives the same answer and the same
    store. *)
Theorem admin_seed_is_idempotent cfg names seq d authorization r d' :
  JS.or_default authorization "" = "Bearer " ++ ADMIN_TOKEN cfg ->
  admin_seed cfg names seq [] d authorization = (r, d') ->
  (exists rows, r = SeedOk rows)
  /\ Forall (fun n => name_taken n (candidates d') = true) names
  /\ forall seq', admin_seed cfg names seq' [] d' authorization = (r, d').
Proof.
  intros Hauth. unfold admin_seed.
  rewrite !bool_decide_eq_true_2 by done. simpl.
  unfold db_transaction. cbn [next_fault].
  destruct (SeedRouteFacts.seed_missing_runs names seq d) as [d1 E].
  unfold plan in *. rewrite E. intros [= <- <-].
  apply SeedRouteFacts.seed_missing_stays in E as [_ Hall].
  specialize (Hall eq_refl).
  split; [eauto|]. split; [done|]. intros seq'.
  by rewrite (SeedRouteFacts.seed_missing_noop _ seq' _ Hall).
Qed.

Lemma admin_seed_is_idempotent_witness :
  (exists rows,
     (admin_seed cfg0 ["Yes"; "Maybe"] 2 [] db5 (Some "Bearer s3cret")).1
     = SeedOk rows)
  /\ Forall (fun n =>
               name_taken n
                 (candidates (admin_seed cfg0 ["Yes"; "Maybe"] 2 [] db5
                                (Some "Bearer s3cret")).2) = true)
            ["Yes"; "Maybe"]
  /\ forall seq',
       admin_seed cfg0 ["Yes"; "Maybe"] seq' []
         (admin_seed cfg0 ["Yes"; "Maybe"] 2 [] db5 (Some "Bearer s3cret")).2
         (Some "Bearer s3cret")
       = ((admin_seed cfg0 ["Yes"; "Maybe"] 2 [] db5 (Some "Bearer s3cret")).1,
          (admin_seed cfg0 ["Yes"; "Maybe"] 2 [] db5 (Some "Bearer s3cret")).2).
Proof.
  apply (admin_seed_is_idempotent cfg0 ["Yes"; "Maybe"] 2 db5
           (Some "Bearer s3cret")).
  - reflexivity.
  - reflexivity.
Defined.

(** * The two confirmer paths side by side *)

Module PathFacts.

Lemma webhook_counts cfg prov d sig raw sid trx :
  webhook_configured cfg ->
  constructEvent prov raw sig (default "" (STRIPE_WEBHOOK_SECRET cfg))
  = Ok (Event "checkout.session.completed" sid) ->
  select_transaction sid d = Some trx -> paid trx = false ->
  stripe_webhook cfg prov [] d sig raw
  = (json (BReceived None), counted sid trx d).
Proof.
  intros [Hsec Hstripe] Hev Hsel Hpaid. unfold stripe_webhook.
  rewrite Hsec, Hstripe, Hev. simpl. rewrite Hsel, Hpaid. reflexivity.
Qed.

Lemma webhook_counted cfg prov d sig raw sid trx :
  webhook_configured cfg ->
  constructEvent prov raw sig (default "" (STRIPE_WEBHOOK_SECRET cfg))
  = Ok (Event "checkout.session.completed" sid) ->
  select_transaction sid d = Some trx -> paid trx = true ->
  stripe_webhook cfg prov [] d sig raw = (json (BReceived None), d).
Proof.
  intros [Hsec Hstripe] Hev Hsel Hpaid. unfold stripe_webhook.
  rewrite Hsec, Hstripe, Hev. simpl. by rewrite Hsel, Hpaid.
Qed.

Lemma alter_found (m : gmap Z candidate) i x f :
  m !! i = Some x -> alter f i m = <[i := f x]> m.
Proof.
  intros H. apply map_eq. intros j. destruct (decide (i = j)) as [<-|Hne].
  - by rewrite lookup_alter_eq, lookup_insert_eq, H.
  - by rewrite lookup_alter_ne, lookup_insert_ne.
Qed.

(** The store with the votes of [trx] counted, row by row. *)
Lemma counted_rows sid trx cand d :
  candidates d !! candidate_id trx = Some cand ->
  counted sid trx d
  = Db (<[candidate_id trx := Candidate (name cand) (tally cand + votes trx)]>
          (candidates d))
       (List.map
          (fun t => if bool_decide (session_id t = sid)
                    then Transaction (session_id t) (candidate_id t) (votes t)
                                     (currency t) (amount_total t) true
                    else t)
          (transactions d))
       (settings d).
Proof.
  intros H. unfold counted, inc_tally, mark_paid. simpl.
  by rewrite (alter_found _ _ _ _ H).
Qed.

End PathFacts.

(** X26: handled one after another, each to its end, the pull path and
    the push path do the same to the ledger.  For a pending transaction
    whose session the provider reports as paid, on a server with both
    paths configured and an engine that does not fail, the pull alone,
    the push alone, the pull followed by the push and the push followed
    by the pull all end in the same store: the rows of the session have
    [paid] set, the candidate's tally is the old tally plus the row's
    votes, once, and everything else is as it was. *)
Theorem pull_and_push_agree cfg prov d sid trx cand sig raw :
  select_transaction sid d = Some trx ->
  paid trx = false ->
  candidates d !! candidate_id trx = Some cand ->
  sid <> "" ->
  webhook_configured cfg ->
  sessions_retrieve prov sid = Ok "paid" ->
  constructEvent prov raw sig (default "" (STRIPE_WEBHOOK_SECRET cfg))
  = Ok (Event "checkout.session.completed" sid) ->
  let pull := Call (GET_verify_session (Some sid)) prov [] in
  let push := Call (POST_stripe_webhook sig raw) prov [] in
  let final :=
    Db (<[candidate_id trx := Candidate (name cand) (tally cand + votes trx)]>
          (candidates d))
       (List.map
          (fun t => if bool_decide (session_id t = sid)
                    then Transaction (session_id t) (candidate_id t) (votes t)
                                     (currency t) (amount_total t) true
                    else t)
          (transactions d))
       (settings d) in
  (run cfg d [pull]).2 = final
  /\ (run cfg d [push]).2 = final
  /\ (run cfg d [pull; push]).2 = final
  /\ (run cfg d [push; pull]).2 = final.
Proof.
  intros Hsel Hpaid Hcand Hne Hcfg Hret Hev pull push final.
  pose proof Hcfg as [_ Hstripe].
  pose proof (CheckoutFacts.verify_counts cfg prov d sid trx
                Hsel Hpaid Hne Hstripe Hret) as Epull.
  pose proof (PathFacts.webhook_counts cfg prov d sig raw sid trx
                Hcfg Hev Hsel Hpaid) as Epush.
  pose proof (StoreFacts.select_counted _ _ _ Hsel) as Hsel'.
  pose proof (verify_paid cfg sid (set_paid trx) prov [] _ Hsel' eq_refl Hne)
    as Epull'.
  pose proof (PathFacts.webhook_counted cfg prov _ sig raw sid (set_paid trx)
                Hcfg Hev Hsel' eq_refl) as Epush'.
  unfold run, serve, pull, push; simpl.
  rewrite Epull, Epush. simpl. rewrite Epull', Epush'. simpl.
  subst final. rewrite (PathFacts.counted_rows _ _ _ _ Hcand).
  by repeat split.
Qed.

Lemma pull_and_push_agree_witness :
  let pull := Call (GET_verify_session (Some "cs_1")) (provider_ok "paid") [] in
  let push := Call (POST_stripe_webhook (Some "t=1,v1=5257a8") "{}")
                   (provider_ok "paid") [] in
  let final :=
    Db (<[1 := Candidate "Yes" 8]> (candidates db5_pending))
       [Transaction "cs_1" 1 3 "USD" 300 true]
       (settings db5_pending) in
  (run cfg0 db5_pending [pull]).2 = final
  /\ (run cfg0 db5_pending [push]).2 = final
  /\ (run cfg0 db5_pending [pull; push]).2 = final
  /\ (run cfg0 db5_pending [push; pull]).2 = final.
Proof.
  apply (pull_and_push_agree cfg0 (provider_ok "paid") db5_pending "cs_1"
           trx_pending (Candidate "Yes" 5) (Some "t=1,v1=5257a8") "{}").
  - reflexivity.
  - reflexivity.
  - reflexivity.
  - discriminate.
  - split; reflexivity.
  - reflexivity.
  - reflexivity.
Defined.

(** * A notification between the two turns of the pull path *)

(** X30: the pull handler in two turns.  Run without another handler
    in between, the two turns are the pull path.  When a completion
    notification for the same pending session is handled between them,
    on a server with both paths configured, a provider that reports the
    session as paid and an engine that does not fail, both handlers
    count the votes: the pull path answers "counted", the session's row
    is paid, and the candidate's tally has risen by twice the row's
    votes. *)
Theorem overlapping_confirmations_count_twice cfg prov d sid trx cand sig raw :
  select_transaction sid d = Some trx ->
  paid trx = false ->
  candidates d !! candidate_id trx = Some cand ->
  sid <> "" ->
  webhook_configured cfg ->
  sessions_retrieve prov sid = Ok "paid" ->
  constructEvent prov raw sig (default "" (STRIPE_WEBHOOK_SECRET cfg))
  = Ok (Event "checkout.session.completed" sid) ->
  (forall faults d0 q,
     verify_session cfg prov faults d0 q
     = match verify_session_begin cfg d0 q with
       | Answered r => (r, d0)
       | Awaiting sid0 trx0 => verify_session_resume prov faults d0 sid0 trx0
       end)
  /\ verify_session_begin cfg d (Some sid) = Awaiting sid trx
  /\ exists d1 d2,
       stripe_webhook cfg prov [] d sig raw = (json (BReceived None), d1)
       /\ verify_session_resume prov [] d1 sid trx = (json BCounted, d2)
       /\ select_transaction sid d2
          = Some (Transaction (session_id trx) (candidate_id trx) (votes trx)
                              (currency trx) (amount_total trx) true)
       /\ candidates d2 !! candidate_id trx
          = Some (Candidate (name cand) (tally cand + 2 * votes trx))
       /\ transactions d2 = transactions d1.
Proof.
  intros Hsel Hpaid Hcand Hne Hcfg Hret Hev.
  pose proof Hcfg as [_ Hstripe].
  split; [|split].
  - intros faults d0 q. unfold verify_session, verify_session_begin.
    destruct (negb (JS.truthy_opt q)); [done|]. simpl.
    destruct (select_transaction _ d0) as [t|]; [|done].
    destruct (paid t); [done|]. by destruct (negb (stripe cfg)).
  - unfold verify_session_begin. simpl.
    rewrite (StoreFacts.truthy_nonempty _ Hne). simpl.
    by rewrite Hsel, Hpaid, Hstripe.
  - exists (counted sid trx d), (counted sid trx (counted sid trx d)).
    split; [by apply PathFacts.webhook_counts|].
    split; [unfold verify_session_resume; by rewrite Hret|].
    pose proof (StoreFacts.select_counted _ _ _ Hsel) as Hsel1.
    split; [|split].
    + change (select_transaction sid (mark_paid sid (counted sid trx d))
              = Some (set_paid trx)).
      by rewrite (StoreFacts.select_mark_paid _ _ _ Hsel1).
    + rewrite (counted_tally sid trx _ _ (counted_tally sid trx d cand Hcand)).
      simpl. do 2 f_equal. lia.
    + unfold counted at 1. unfold inc_tally, mark_paid. simpl.
      rewrite <- (map_id (transactions (counted sid trx d))) at 2.
      apply map_ext_in. intros t Ht. case_bool_decide; [|done].
      unfold counted, inc_tally, mark_paid in Ht. simpl in Ht.
      apply in_map_iff in Ht as (t0 & <- & _).
      case_bool_decide; [by destruct t0|]. simpl in *. done.
Qed.

Lemma overlapping_confirmations_count_twice_witness :
  (forall faults d0 q,
     verify_session cfg0 (provider_ok "paid") faults d0 q
     = match verify_session_begin cfg0 d0 q with
       | Answered r => (r, d0)
       | Awaiting sid0 trx0 =>
           verify_session_resume (provider_ok "paid") faults d0 sid0 trx0
       end)
  /\ verify_session_begin cfg0 db5_pending (Some "cs_1")
     = Awaiting "cs_1" trx_pending
  /\ exists d1 d2,
       stripe_webhook cfg0 (provider_ok "paid") [] db5_pending
         (Some "t=1,v1=5257a8") "{}"
       = (json (BReceived None), d1)
       /\ verify_session_resume (provider_ok "paid") [] d1 "cs_1" trx_pending
          = (json BCounted, d2)
       /\ select_transaction "cs_1" d2
          = Some (Transaction (session_id trx_pending)
                    (candidate_id trx_pending) (votes trx_pending)
                    (currency trx_pending) (amount_total trx_pending) true)
       /\ candidates d2 !! candidate_id trx_pending
          = Some (Candidate (name (Candidate "Yes" 5))
                    (tally (Candidate "Yes" 5) + 2 * votes trx_pending))
       /\ transactions d2 = transactions d1.
Proof.
  apply (overlapping_confirmations_count_twice cfg0 (provider_ok "paid")
           db5_pending "cs_1" trx_pending (Candidate "Yes" 5)
           (Some "t=1,v1=5257a8") "{}").
  - reflexivity.
  - reflexivity.
  - reflexivity.
  - discriminate.
  - split; reflexivity.
  - reflexivity.
  - reflexivity.
Defined.

(** * Letter case and numerals in a checkout request *)

Module InputFacts.

Lemma upper_char_idem c : JS.upper_char (JS.upper_char c) = JS.upper_char c.
Proof. destruct c as [[] [] [] [] [] [] [] []]; reflexivity. Qed.

Lemma toUpperCase_idem s : JS.toUpperCase (JS.toUpperCase s) = JS.toUpperCase s.
Proof.
  induction s as [|c s IH]; simpl; [done|]. by rewrite upper_char_idem, IH.
Qed.

Lemma toUpperCase_truthy s : JS.truthy (JS.toUpperCase s) = JS.truthy s.
Proof. by destruct s. Qed.

Lemma currency_case cur :
  JS.toUpperCase (JS.or_default (Some (JS.toUpperCase cur)) "USD")
  = JS.toUpperCase (JS.or_default (Some cur) "USD").
Proof.
  simpl. rewrite toUpperCase_truthy.
  destruct (JS.truthy cur); [apply toUpperCase_idem|done].
Qed.

(** The digit loop on a numeral followed by other text. *)
Lemma digits_numeral_then (u : Decimal.uint) rest acc :
  JS.starts_with_digit rest = false ->
  JS.digits (NilEmpty.string_of_uint u ++ rest) acc = value_acc u acc.
Proof.
  intros Hrest. revert acc.
  induction u; intros acc; simpl; try apply IHu.
  destruct rest as [|c r]; [done|]. simpl in *.
  destruct (JS.digit_of c); [|done].
  by rewrite bool_decide_eq_true_2 in Hrest.
Qed.

(** [parseInt] reads the numeral at the head of a text. *)
Lemma parseInt_numeral_then (v : Z) rest :
  1 <= v ->
  JS.starts_with_digit rest = false ->
  JS.parseInt (JS.JStr (JS.decimal v ++ rest)) = JS.to_number v.
Proof.
  intros Hv Hrest. destruct v as [|p|p]; try lia.
  unfold JS.parseInt, JS.ToString. rewrite JSFacts.decimal_pos.
  destruct (JSFacts.string_of_uint_head (Pos.to_uint p)) as (c & r & E & Hc).
  { apply Unsigned.to_uint_nonnil. }
  pose proof (digits_numeral_then (Pos.to_uint p) rest 0 Hrest) as Hd.
  rewrite E in *. rewrite CorsFacts.append_cons in *.
  rewrite (JSFacts.digit_not_sign c _ Hc), Hd.
  by rewrite JSFacts.value_acc_of_uint, Unsigned.of_to.
Qed.

End InputFacts.

(** X27: the letter case of the currency code does not matter.  The
    page accepts a code in any case if it accepts it in upper case, and
    the server treats a request exactly as the same request with the code
    in upper case. *)
Theorem currency_case_is_ignored cfg prov faults d cid v cur su cu :
  isValidCurrency (JS.toUpperCase cur) currencies
  = isValidCurrency cur currencies
  /\ create_checkout_session cfg prov faults d
       (CheckoutBody cid v (Some (JS.toUpperCase cur)) su cu)
     = create_checkout_session cfg prov faults d
         (CheckoutBody cid v (Some cur) su cu).
Proof.
  split.
  - unfold isValidCurrency. by rewrite InputFacts.toUpperCase_idem.
  - unfold create_checkout_session.
    cbn [b_currency b_candidateId b_votes b_successUrl b_cancelUrl].
    by rewrite InputFacts.currency_case.
Qed.

(** X28: the server reads the leading integer of a vote count sent as
    text: the decimal numeral of a safe integer [v], [1 <= v < 2^53],
    followed by anything that does not start with a digit counts as
    [v], and the request is treated exactly as the one with the number
    [v]. *)
Theorem votes_text_counts_as_its_numeral cfg prov faults d cid v rest cur su cu :
  1 <= v < 2 ^ 53 ->
  JS.starts_with_digit rest = false ->
  coerce_votes (JS.parseInt (JS.JStr (JS.decimal v ++ rest))) = v
  /\ create_checkout_session cfg prov faults d
       (CheckoutBody cid (JS.JStr (JS.decimal v ++ rest)) cur su cu)
     = create_checkout_session cfg prov faults d
         (CheckoutBody cid (JS.JNum v) cur su cu).
Proof.
  intros Hv Hrest.
  pose proof (InputFacts.parseInt_numeral_then v rest ltac:(lia) Hrest) as E.
  rewrite JSFacts.to_number_safe in E by lia.
  split; [rewrite E; apply coerce_votes_valid; lia|].
  unfold create_checkout_session.
  cbn [b_currency b_candidateId b_votes b_successUrl b_cancelUrl].
  rewrite E, JSFacts.parseInt_JNum by lia. reflexivity.
Qed.

Lemma votes_text_counts_as_its_numeral_witness :
  coerce_votes (JS.parseInt (JS.JStr (JS.decimal 12 ++ " votes"))) = 12
  /\ create_checkout_session cfg0 (provider_ok "unpaid") [] db5
       (CheckoutBody (Some 1) (JS.JStr (JS.decimal 12 ++ " votes"))
          None None None)
     = create_checkout_session cfg0 (provider_ok "unpaid") [] db5
         (CheckoutBody (Some 1) (JS.JNum 12) None None None).
Proof.
  apply (votes_text_counts_as_its_numeral cfg0 (provider_ok "unpaid") [] db5
           (Some 1) 12 " votes" None None None).
  - lia.
  - reflexivity.
Defined.

(** X29: on safe integers the page and the server normalise a vote
    count alike: for a whole number [v] below 2^53, what
    [normalizeVotes] makes of [v] is what the server makes of it when it
    arrives as a number. *)
Theorem page_and_server_votes_agree (v : Z) :
  v < 2 ^ 53 ->
  coerce_votes (JS.parseInt (JS.JNum v)) = normalizeVotes v
  /\ coerce_votes (JS.parseInt (JS.JNum (normalizeVotes v))) = normalizeVotes v.
Proof.
  intros Hv. unfold normalizeVotes.
  destruct (Z.ltb_spec v 1).
  - split.
    + apply coerce_votes_nonpos. intros n.
      apply JSFacts.parseInt_JNum_nonpos. lia.
    + rewrite JSFacts.parseInt_JNum by lia. reflexivity.
  - rewrite JSFacts.parseInt_JNum by lia.
    split; apply coerce_votes_valid; lia.
Qed.

Lemma page_and_server_votes_agree_witness :
  coerce_votes (JS.parseInt (JS.JNum (-4))) = normalizeVotes (-4)
  /\ coerce_votes (JS.parseInt (JS.JNum (normalizeVotes (-4))))
     = normalizeVotes (-4).
Proof.
  apply (page_and_server_votes_agree (-4)). lia.
Defined.
